(** * Icon generators of claude-code-ios: [extract-icons.py] and [generate-icons.py]

    A shallow embedding of the two scripts and the properties of their
    layout arithmetic, draw calls and batch drivers.

    - [Float]: CPython floats (IEEE binary64), as far as [int(n * c)] needs them;
    - [OsPath], [PIL]: the slices of [os.path] and Pillow the scripts call;
    - [Py]: the interpreter state (module globals, stdout, file system) and the
      state-and-exception monad the scripts run in;
    - [ExtractIcons]: [extract-icons.py] (variant A);
    - [GenerateIcons]: [generate-icons.py] (variant B). *)

From Stdlib Require Import ZArith Lia Bool List String Ascii QArith Qabs.
From Stdlib Require Import Floats.SpecFloat.
From stdpp Require Import base tactics option list strings gmap pretty.

Local Open Scope Z_scope.

(** ** CPython floats *)

Module Float.

(** A finite double is [mant * 2 ^ expo] with [|mant| < 2 ^ 53]. The exponent
    range is not modelled: the scripts multiply the side of a canvas, or a
    part of it, by a constant between [0.02] and [0.8], and no such product
    overflows or is subnormal. *)
Record float := mk { mant : Z; expo : Z }.

Definition prec : Z := 53.

(** Round [m * 2 ^ e] to [prec] significant bits, ties to even. *)
Definition round (m e : Z) : float :=
  let a := Z.abs m in
  let bits := Z.log2 a + 1 in
  if bits <=? prec then mk m e
  else
    let sh := bits - prec in
    let q := a / 2 ^ sh in
    let r := a mod 2 ^ sh in
    let half := 2 ^ (sh - 1) in
    let q' := if (half <? r) || ((r =? half) && Z.odd q) then q + 1 else q in
    mk (Z.sgn m * q') (e + sh).

(** [float(n)] for a Python int. *)
Definition of_int (n : Z) : float := round n 0.

(** [x * y]. *)
Definition mul (x y : float) : float :=
  round (mant x * mant y) (expo x + expo y).

(** [int(x)]: truncation towards zero. *)
Definition to_int (x : float) : Z :=
  if 0 <=? expo x then mant x * 2 ^ expo x
  else Z.quot (mant x) (2 ^ (- expo x)).

(** The literal [d / 10 ^ k] ([0 < d]), correctly rounded: the quotient is
    taken with more than [prec + 2] bits and a sticky bit for the remainder. *)
Definition of_decimal (d : Z) (k : Z) : float :=
  let den := 10 ^ k in
  let s := 64 + Z.log2 den in
  let q := (d * 2 ^ s) / den in
  let sticky := if (d * 2 ^ s) mod den =? 0 then 0 else 1 in
  round (2 * q + sticky) (- s - 1).

(** Decimal literals of the source, written as they are there. *)
Definition of_number (n : Number.number) : option float :=
  match n with
  | Number.Decimal (Decimal.Decimal i f) =>
      let d := Z.of_int (Decimal.app_int i f) in
      if 0 <? d then Some (of_decimal d (Z.of_nat (Decimal.nb_digits f)))
      else None
  | _ => None
  end.

Definition to_number (x : float) : option Number.number := None.

(** [n * c] for an int [n] and a float [c]: the int is converted first. *)
Definition imul (n : Z) (c : float) : float := mul (of_int n) c.

(** A constant of the source: a non-negative double below one. *)
Definition small_const (c : float) : Prop :=
  0 <= mant c < 2 ^ 53 /\ expo c <= -53.

(** The same value, in the representation of the Standard Library's
    IEEE 754 specification. *)
Definition to_spec (x : float) : spec_float :=
  binary_normalize 53 1024 (mant x) (expo x) false.

Definition spec_eqb (x y : spec_float) : bool :=
  match x, y with
  | S754_zero a, S754_zero b => Bool.eqb a b
  | S754_finite a m e, S754_finite b m' e' => Bool.eqb a b && Pos.eqb m m' && Z.eqb e e'
  | _, _ => false
  end.

(** [n * c] computed here and by the Standard Library's [SFmul] on
    binary64 ([prec = 53], [emax = 1024]). *)
Definition agrees (c : float) (n : Z) : bool :=
  spec_eqb (to_spec (mul (of_int n) c))
           (SFmul 53 1024 (to_spec (of_int n)) (to_spec c)).

End Float.

Declare Scope pyfloat_scope.
Delimit Scope pyfloat_scope with pyfloat.
Bind Scope pyfloat_scope with Float.float.
Number Notation Float.float Float.of_number Float.to_number : pyfloat_scope.

Notation "n *~ c" := (Float.imul n c%pyfloat) (at level 40, left associativity).
Abbreviation int := Float.to_int.


(** ** [os.path] *)

Module OsPath.
Local Open Scope string_scope.

Definition sep : ascii := "/"%char.
Definition extsep : ascii := "."%char.

Definition startswith (c : ascii) (s : string) : bool :=
  match s with
  | String c' _ => Ascii.eqb c' c
  | EmptyString => false
  end.

Fixpoint endswith (c : ascii) (s : string) : bool :=
  match s with
  | EmptyString => false
  | String c' EmptyString => Ascii.eqb c' c
  | String _ s' => endswith c s'
  end.

(** [os.path.join(a, p)] of [posixpath], for one component [p]. *)
Definition join (a p : string) : string :=
  if startswith sep p then p
  else if String.eqb a "" || endswith sep a then a +:+ p
  else a +:+ String sep p.

Fixpoint take_until (c : ascii) (l : list ascii) : list ascii :=
  match l with
  | [] => []
  | x :: l' => if Ascii.eqb x c then [] else x :: take_until c l'
  end.

Fixpoint drop_until (c : ascii) (l : list ascii) : list ascii :=
  match l with
  | [] => []
  | x :: l' => if Ascii.eqb x c then l else drop_until c l'
  end.

(** The second component of [os.path.splitext(p)]: the suffix of the last
    path component from its last dot on, empty when there is no dot or when
    only dots come before it. *)
Definition splitext_ext (p : string) : string :=
  let base_rev := take_until sep (rev (list_ascii_of_string p)) in
  let ext_rev := take_until extsep base_rev in
  match drop_until extsep base_rev with
  | [] => ""
  | dot :: root_rev =>
      if existsb (fun c => negb (Ascii.eqb c extsep)) root_rev
      then string_of_list_ascii (rev (ext_rev ++ [dot]))
      else ""
  end.

End OsPath.

(** ** Exceptions *)

Inductive exn : Set :=
| ValueError
| OverflowError
| OSError
| ImportError.

Inductive Result (A : Type) : Type :=
| Ok (a : A)
| Raise (e : exn).
Arguments Ok {A} a.
Arguments Raise {A} e.

Definition Result_bind {A B} (r : Result A) (k : A -> Result B) : Result B :=
  match r with
  | Ok a => k a
  | Raise e => Raise e
  end.

(** ** Pillow: [Image], [ImageDraw], [ImageColor] *)

Module PIL.
Local Open Scope string_scope.

Definition Color : Type := Z * Z * Z.

(** What the scripts pass as a colour: a tuple or a string. *)
Inductive ColorSpec :=
| rgb (r g b : Z)
| named (s : string).

Definition hexdigit (c : ascii) : option Z :=
  let n := Z.of_N (N_of_ascii c) in
  if ((48 <=? n) && (n <=? 57))%Z then Some (n - 48)
  else if ((97 <=? n) && (n <=? 102))%Z then Some (n - 87)
  else if ((65 <=? n) && (n <=? 70))%Z then Some (n - 55)
  else None.

Definition hexpair (h l : ascii) : option Z :=
  match hexdigit h, hexdigit l with
  | Some a, Some b => Some (16 * a + b)
  | _, _ => None
  end.

(** [ImageColor.getrgb]: tuples pass through; of the string forms, the
    [#rgb] and [#rrggbb] ones (hexadecimal digits in either case). *)
Definition getrgb (c : ColorSpec) : option Color :=
  match c with
  | rgb r g b => Some (r, g, b)
  | named (String "#" (String r1 (String r2 (String g1 (String g2
            (String b1 (String b2 EmptyString))))))) =>
      match hexpair r1 r2, hexpair g1 g2, hexpair b1 b2 with
      | Some r, Some g, Some b => Some (r, g, b)
      | _, _, _ => None
      end
  | named (String "#" (String r (String g (String b EmptyString)))) =>
      match hexpair r r, hexpair g g, hexpair b b with
      | Some r, Some g, Some b => Some (r, g, b)
      | _, _, _ => None
      end
  | named _ => None
  end.

(** A draw call with its arguments resolved: [xy] is the list
    [[x0; y0; x1; y1]] the scripts pass. *)
Inductive DrawCall :=
| rectangle (xy : list Z) (fill : Color)
| rounded_rectangle (xy : list Z) (radius : Z) (fill : Color)
| ellipse (xy : list Z) (fill : option Color) (outline : option Color) (width : Z).

(** An image is its mode, its size, the colour it was allocated with and
    the draw calls made on it, oldest first. Pillow rasterises a call as a
    function of these alone, so equal records are equal pixel for pixel. *)
Record Image := mkImage {
  mode : string;
  size : Z * Z;
  color : Color;
  calls : list DrawCall
}.

(** The box a call draws in. *)
Definition box (c : DrawCall) : list Z :=
  match c with
  | rectangle xy _ | rounded_rectangle xy _ _ | ellipse xy _ _ _ => xy
  end.

(** [x0 <= x1] and [y0 <= y1]: what Pillow asks of a box. *)
Definition ordered (xy : list Z) : bool :=
  match xy with
  | [x0; y0; x1; y1] => (x0 <=? x1)%Z && (y0 <=? y1)%Z
  | _ => false
  end.


Definition width (im : Image) : Z := fst (size im).

Definition ink (c : ColorSpec) : Result Color :=
  match getrgb c with
  | Some k => Ok k
  | None => Raise ValueError
  end.

(** [Image.new(mode, size, color)]: a negative side is a [ValueError]. *)
Definition new (mode : string) (size : Z * Z) (color : ColorSpec) : Result Image :=
  if ((fst size <? 0) || (snd size <? 0))%Z then Raise ValueError
  else Result_bind (ink color) (fun k => Ok (mkImage mode size k [])).

Definition draw (im : Image) (c : DrawCall) : Image :=
  mkImage (mode im) (size im) (color im) (calls im ++ [c]).

(** [draw.rectangle(xy, fill=...)] *)
Definition draw_rectangle (im : Image) (xy : list Z) (fill : ColorSpec) : Result Image :=
  Result_bind (ink fill) (fun k => Ok (draw im (rectangle xy k))).

(** [draw.rounded_rectangle(xy, radius=..., fill=...)] *)
Definition draw_rounded_rectangle (im : Image) (xy : list Z) (radius : Z)
    (fill : ColorSpec) : Result Image :=
  Result_bind (ink fill) (fun k => Ok (draw im (rounded_rectangle xy radius k))).

(** [draw.ellipse(xy, fill=...)] *)
Definition draw_ellipse (im : Image) (xy : list Z) (fill : ColorSpec) : Result Image :=
  Result_bind (ink fill) (fun k => Ok (draw im (ellipse xy (Some k) None 1))).

(** [draw.ellipse(xy, outline=..., width=...)] *)
Definition draw_ellipse_outline (im : Image) (xy : list Z) (outline : ColorSpec)
    (width : Z) : Result Image :=
  Result_bind (ink outline) (fun k => Ok (draw im (ellipse xy None (Some k) width))).

Definition lower_ascii (c : ascii) : ascii :=
  let n := N_of_ascii c in
  if (65 <=? n)%N && (n <=? 90)%N then ascii_of_N (n + 32) else c.

Fixpoint lower (s : string) : string :=
  match s with
  | EmptyString => EmptyString
  | String c s' => String (lower_ascii c) (lower s')
  end.

(** [Image.registered_extensions()], the raster formats of interest. *)
Definition EXTENSION : list (string * string) :=
  [(".png", "PNG"); (".jpg", "JPEG"); (".jpeg", "JPEG"); (".gif", "GIF"); (".bmp", "BMP")].

Fixpoint assoc (k : string) (l : list (string * string)) : option string :=
  match l with
  | [] => None
  | (k', v) :: l' => if String.eqb k k' then Some v else assoc k l'
  end.

(** The format [Image.save] picks for a file name. *)
Definition format_of (fp : string) : option string :=
  assoc (lower (OsPath.splitext_ext fp)) EXTENSION.

(** A file on disk: the format it was encoded in and the image. *)
Record File := mkFile { format : string; image : Image }.

End PIL.

(** ** The interpreter: module globals, stdout, the file system *)

Module Py.

Record World := mkWorld {
  (** whether [from PIL import ...] succeeds on this machine *)
  pil_installed : bool;
  (** the module global [HAS_PIL] of [extract-icons.py] *)
  HAS_PIL : bool;
  (** the lines printed so far, oldest first *)
  stdout : list string;
  (** the files on disk, by path *)
  files : gmap string PIL.File;
  (** the paths that cannot be opened for writing *)
  locked : list string
}.

(** A computation reads and updates the world and returns or raises. *)
Definition M (A : Type) : Type := World -> Result A * World.

Definition ret {A} (a : A) : M A := fun w => (Ok a, w).

Definition bind {A B} (c : M A) (k : A -> M B) : M B :=
  fun w => match c w with
           | (Ok a, w') => k a w'
           | (Raise e, w') => (Raise e, w')
           end.

Definition raise {A} (e : exn) : M A := fun w => (Raise e, w).

(** A library call that touches no state. *)
Definition lift {A} (r : Result A) : M A := fun w => (r, w).

Definition add_stdout (lines : list string) (w : World) : World :=
  mkWorld (pil_installed w) (HAS_PIL w) (stdout w ++ lines) (files w) (locked w).

Definition set_files (fs : gmap string PIL.File) (w : World) : World :=
  mkWorld (pil_installed w) (HAS_PIL w) (stdout w) fs (locked w).

Definition print (line : string) : M unit :=
  fun w => (Ok tt, add_stdout [line] w).

Definition get_HAS_PIL : M bool := fun w => (Ok (HAS_PIL w), w).

Definition set_HAS_PIL (b : bool) : M unit :=
  fun w => (Ok tt, mkWorld (pil_installed w) b (stdout w) (files w) (locked w)).

Definition can_import_PIL : M bool := fun w => (Ok (pil_installed w), w).

Definition is_locked (fp : string) (w : World) : bool :=
  existsb (String.eqb fp) (locked w).

(** [img.save(fp)]: the format comes from the extension ([ValueError] when
    it is unknown), then the file is opened for writing ([OSError] when
    that fails) and written. *)
Definition save (img : PIL.Image) (fp : string) : M unit :=
  fun w => match PIL.format_of fp with
           | None => (Raise ValueError, w)
           | Some fmt =>
               if is_locked fp w then (Raise OSError, w)
               else (Ok tt, set_files (<[fp := PIL.mkFile fmt img]> (files w)) w)
           end.

(** [for x in l: body(x)] *)
Fixpoint for_each {A} (l : list A) (body : A -> M unit) : M unit :=
  match l with
  | [] => ret tt
  | x :: l' => bind (body x) (fun _ => for_each l' body)
  end.

(** [for x in l: body(x)], where the body updates a local [acc]. *)
Fixpoint for_fold {A S} (l : list A) (acc : S) (body : S -> A -> M S) : M S :=
  match l with
  | [] => ret acc
  | x :: l' => bind (body acc x) (fun acc' => for_fold l' acc' body)
  end.

(** [range(n)] *)
Definition range (n : Z) : list Z := map Z.of_nat (seq 0 (Z.to_nat n)).

(** [str(n)] *)
Definition str (n : Z) : string := pretty n.

(** A fresh interpreter on a machine with Pillow, after the import. *)
Definition with_pil : World := mkWorld true true [] ∅ [].

End Py.

Notation "'do' x <- c ; k" := (Py.bind c (fun x => k))
  (at level 10, x name, c at level 100, k at level 200).
Notation "'exec' c ; k" := (Py.bind c (fun _ => k))
  (at level 10, c at level 100, k at level 200).

(** [Image.new] and the [ImageDraw] methods, as the scripts call them. The
    [img] they return is the same Python object, drawn on in place. *)

Module Image.
Definition new (mode : string) (size : Z * Z) (color : PIL.ColorSpec) : Py.M PIL.Image :=
  Py.lift (PIL.new mode size color).
End Image.

Module ImageDraw.
Definition rectangle img xy fill := Py.lift (PIL.draw_rectangle img xy fill).
Definition rounded_rectangle img xy radius fill :=
  Py.lift (PIL.draw_rounded_rectangle img xy radius fill).
Definition ellipse img xy fill := Py.lift (PIL.draw_ellipse img xy fill).
Definition ellipse_outline img xy outline width :=
  Py.lift (PIL.draw_ellipse_outline img xy outline width).
End ImageDraw.

(** The directory both scripts write to. *)
Definition output_dir : string :=
  "/Users/jfuginay/Documents/dev/claude-code-ios/ClaudeCodeiOS/ClaudeCodeiOS/Assets.xcassets/AppIcon.appiconset".

(** ** [extract-icons.py] (variant A) *)

Module ExtractIcons.
Import PIL.
Local Open Scope string_scope.

(** The local variables of [create_terminal_icon] that hold geometry. *)
Record Layout := mkLayout {
  frame_size : Z; frame_x : Z; frame_y : Z; corner_radius : Z;
  header_height : Z;
  button_radius : Z; button_y : Z; button_spacing : Z;
  start_x : Z; yellow_x : Z; green_x : Z;
  content_y : Z; content_height : Z;
  logo_size : Z; logo_x : Z; logo_y : Z;
  c_radius : Z; c_center_x : Z; c_center_y : Z; c_thickness : Z;
  gap_width : Z;
  cursor_x : Z; cursor_y : Z; cursor_width : Z; cursor_height : Z;
  dot_radius : Z; dot_y : Z
}.

Definition layout (size : Z) : Layout :=
  let frame_size := int (size *~ 0.8) in
  let frame_x := (size - frame_size) / 2 in
  let frame_y := (size - frame_size) / 2 in
  let corner_radius := int (frame_size *~ 0.08) in
  let header_height := int (frame_size *~ 0.15) in
  let button_radius := int (header_height *~ 0.15) in
  let button_y := frame_y + header_height / 2 in
  let button_spacing := int (header_height *~ 0.4) in
  let start_x := frame_x + int (header_height *~ 0.3) in
  let yellow_x := start_x + button_spacing in
  let green_x := start_x + button_spacing * 2 in
  let content_y := frame_y + header_height in
  let content_height := frame_size - header_height in
  let logo_size := int (frame_size *~ 0.35) in
  let logo_x := frame_x + (frame_size - logo_size) / 2 in
  let logo_y := content_y + (content_height - logo_size) / 2 in
  let c_radius := int (logo_size *~ 0.35) in
  let c_center_x := logo_x + logo_size / 2 in
  let c_center_y := logo_y + logo_size / 2 in
  let c_thickness := int (logo_size *~ 0.12) in
  let gap_width := int (c_radius *~ 0.8) in
  let cursor_x := logo_x + int (logo_size *~ 0.75) in
  let cursor_y := logo_y + int (logo_size *~ 0.55) in
  let cursor_width := Z.max 1 (int (logo_size *~ 0.03)) in
  let cursor_height := int (logo_size *~ 0.15) in
  let dot_radius := Z.max 1 (int (logo_size *~ 0.02)) in
  let dot_y := logo_y + int (logo_size *~ 0.8) in
  mkLayout frame_size frame_x frame_y corner_radius header_height
           button_radius button_y button_spacing start_x yellow_x green_x
           content_y content_height logo_size logo_x logo_y
           c_radius c_center_x c_center_y c_thickness gap_width
           cursor_x cursor_y cursor_width cursor_height dot_radius dot_y.

(** The sides and radii of the frame, the header, the buttons and the logo
    elements. *)
Definition dimensions (L : Layout) : list Z :=
  [frame_size L; corner_radius L; header_height L; button_radius L;
   logo_size L; cursor_width L; cursor_height L; dot_radius L].

Definition positive (L : Layout) : Prop := Forall (fun d => 1 <= d)%Z (dimensions L).
Definition nonnegative (L : Layout) : Prop := Forall (fun d => 0 <= d)%Z (dimensions L).

(** [dot_x] in round [i] of the loop over the prompt dots. *)
Definition dot_x (L : Layout) (i : Z) : Z :=
  logo_x L + int (logo_size L *~ 0.2) + i * int (logo_size L *~ 0.08).

Definition create_terminal_icon (size : Z) : Py.M (option Image) :=
  do has_pil <- Py.get_HAS_PIL;
  if negb has_pil then
    exec Py.print "❌ PIL/Pillow not available. Please install: pip3 install Pillow";
    Py.ret None
  else
    do img <- Image.new "RGB" (size, size) (rgb 0 0 0);
    let bg_color := rgb 26 26 26 in
    do img <- ImageDraw.rectangle img [0; 0; size; size] bg_color;
    let L := layout size in
    let terminal_bg := rgb 30 30 30 in
    let terminal_rect := [frame_x L; frame_y L;
                          frame_x L + frame_size L; frame_y L + frame_size L] in
    do img <- ImageDraw.rounded_rectangle img terminal_rect (corner_radius L) terminal_bg;
    let header_bg := rgb 45 45 45 in
    let header_rect := [frame_x L; frame_y L;
                        frame_x L + frame_size L; frame_y L + header_height L] in
    do img <- ImageDraw.rounded_rectangle img header_rect (corner_radius L) header_bg;
    let red_bbox := [start_x L - button_radius L; button_y L - button_radius L;
                     start_x L + button_radius L; button_y L + button_radius L] in
    do img <- ImageDraw.ellipse img red_bbox (rgb 255 95 87);
    let yellow_bbox := [yellow_x L - button_radius L; button_y L - button_radius L;
                        yellow_x L + button_radius L; button_y L + button_radius L] in
    do img <- ImageDraw.ellipse img yellow_bbox (rgb 255 189 46);
    let green_bbox := [green_x L - button_radius L; button_y L - button_radius L;
                       green_x L + button_radius L; button_y L + button_radius L] in
    do img <- ImageDraw.ellipse img green_bbox (rgb 40 202 66);
    let outer_bbox := [c_center_x L - c_radius L - c_thickness L / 2;
                       c_center_y L - c_radius L - c_thickness L / 2;
                       c_center_x L + c_radius L + c_thickness L / 2;
                       c_center_y L + c_radius L + c_thickness L / 2] in
    do img <- ImageDraw.ellipse_outline img outer_bbox (rgb 0 255 136) (c_thickness L);
    let gap_rect := [c_center_x L; c_center_y L - gap_width L / 2;
                     c_center_x L + c_radius L + c_thickness L;
                     c_center_y L + gap_width L / 2] in
    do img <- ImageDraw.rectangle img gap_rect terminal_bg;
    let cursor_rect := [cursor_x L; cursor_y L;
                        cursor_x L + cursor_width L; cursor_y L + cursor_height L] in
    do img <- ImageDraw.rectangle img cursor_rect (rgb 0 255 136);
    do img <- Py.for_fold (Py.range 3) img (fun img i =>
      let dot_color := if (i =? 0)%Z then rgb 0 255 136 else rgb 102 102 102 in
      let dot_x := dot_x L i in
      let dot_bbox := [dot_x - dot_radius L; dot_y L - dot_radius L;
                       dot_x + dot_radius L; dot_y L + dot_radius L] in
      ImageDraw.ellipse img dot_bbox dot_color);
    Py.ret (Some img).

(** What [create_terminal_icon(size)] returns once Pillow is imported. *)
Definition render (size : Z) : Result (option Image) :=
  fst (create_terminal_icon size Py.with_pil).

Definition icon_specs : list (Z * string) :=
  [ (20, "Icon-20.png");
    (40, "Icon-20@2x.png");
    (60, "Icon-20@3x.png");
    (29, "Icon-29.png");
    (58, "Icon-29@2x.png");
    (87, "Icon-29@3x.png");
    (40, "Icon-40.png");
    (80, "Icon-40@2x.png");
    (120, "Icon-40@3x.png");
    (120, "Icon-60@2x.png");
    (180, "Icon-60@3x.png");
    (76, "Icon-76.png");
    (152, "Icon-76@2x.png");
    (167, "Icon-83.5@2x.png");
    (1024, "Icon-1024.png") ].

(** The body of the loop of [main]. *)
Definition main_body (spec : Z * string) : Py.M unit :=
  let '(size, filename) := spec in
  exec Py.print ("  Creating " +:+ filename +:+ " (" +:+ Py.str size +:+ "x"
                 +:+ Py.str size +:+ ")");
  do icon <- create_terminal_icon size;
  match icon with
  | Some icon => Py.save icon (OsPath.join output_dir filename)
  | None => Py.print ("  ❌ Failed to create " +:+ filename)
  end.

Definition main : Py.M unit :=
  do has_pil <- Py.get_HAS_PIL;
  if negb has_pil then
    exec Py.print "❌ PIL/Pillow not available";
    exec Py.print "🔧 Install with: pip3 install Pillow";
    exec Py.print "💡 Alternative: Use the HTML file in browser and download icons manually";
    Py.ret tt
  else
    exec Py.print "🎨 Generating Claude CLI iOS icons...";
    exec Py.for_each icon_specs main_body;
    exec Py.print "✅ All icons generated!";
    exec Py.print ("📁 Icons saved to: " +:+ output_dir);
    exec Py.print (String "010" "🚀 Next steps:");
    exec Py.print "1. Open Xcode";
    exec Py.print "2. Build and Archive (Product > Archive)";
    exec Py.print "3. Upload to TestFlight";
    Py.ret tt.

(** Running the file: the guarded import, then [main()]. *)
Definition script : Py.M unit :=
  do ok <- Py.can_import_PIL;
  exec Py.set_HAS_PIL ok;
  main.

End ExtractIcons.

(** ** [generate-icons.py] (variant B) *)

Module GenerateIcons.
Import PIL.
Local Open Scope string_scope.

Definition ICON_SIZES : list (Z * string) :=
  [ (40, "iphone-20@2x.png");
    (60, "iphone-20@3x.png");
    (58, "iphone-29@2x.png");
    (87, "iphone-29@3x.png");
    (80, "iphone-40@2x.png");
    (120, "iphone-40@3x.png");
    (120, "iphone-60@2x.png");
    (180, "iphone-60@3x.png");
    (20, "ipad-20@1x.png");
    (40, "ipad-20@2x.png");
    (29, "ipad-29@1x.png");
    (58, "ipad-29@2x.png");
    (40, "ipad-40@1x.png");
    (80, "ipad-40@2x.png");
    (76, "ipad-76@1x.png");
    (152, "ipad-76@2x.png");
    (167, "ipad-83.5@2x.png");
    (1024, "ios-marketing@1x.png") ].

(** The local variables of [create_icon] that hold geometry; [radius] is
    the [size//16] passed to both rounded rectangles. *)
Record Layout := mkLayout {
  margin : Z; rect_size : Z; radius : Z;
  header_height : Z;
  dot_size : Z; dot_y : Z;
  red_x : Z; yellow_x : Z; green_x : Z;
  cursor_y : Z; cursor_x : Z; cursor_width : Z; cursor_height : Z
}.

Definition layout (size : Z) : Layout :=
  let margin := size / 8 in
  let rect_size := size - (margin * 2) in
  let radius := size / 16 in
  let header_height := size / 12 in
  let dot_size := size / 32 in
  let dot_y := margin + header_height / 2 in
  let red_x := margin + dot_size * 2 in
  let yellow_x := red_x + dot_size * 2 in
  let green_x := yellow_x + dot_size * 2 in
  let cursor_y := margin + header_height + size / 8 in
  let cursor_x := margin + size / 16 in
  let cursor_width := size / 32 in
  let cursor_height := size / 24 in
  mkLayout margin rect_size radius header_height dot_size dot_y
           red_x yellow_x green_x cursor_y cursor_x cursor_width cursor_height.

(** The sides and radii of the frame, the header, the dots and the cursor. *)
Definition dimensions (L : Layout) : list Z :=
  [margin L; rect_size L; radius L; header_height L; dot_size L;
   cursor_width L; cursor_height L].

Definition positive (L : Layout) : Prop := Forall (fun d => 1 <= d)%Z (dimensions L).
Definition nonnegative (L : Layout) : Prop := Forall (fun d => 0 <= d)%Z (dimensions L).

Definition create_icon (size : Z) (filename : string) : Py.M Image :=
  do img <- Image.new "RGB" (size, size) (named "#007AFF");
  let L := layout size in
  let terminal_rect := [margin L; margin L; margin L + rect_size L; margin L + rect_size L] in
  do img <- ImageDraw.rounded_rectangle img terminal_rect (radius L) (named "#1C1C1E");
  let header_rect := [margin L; margin L; margin L + rect_size L; margin L + header_height L] in
  do img <- ImageDraw.rounded_rectangle img header_rect (radius L) (named "#2C2C2E");
  do img <- ImageDraw.ellipse img [red_x L - dot_size L / 2; dot_y L - dot_size L / 2;
                                   red_x L + dot_size L / 2; dot_y L + dot_size L / 2]
                              (named "#FF5F57");
  do img <- ImageDraw.ellipse img [yellow_x L - dot_size L / 2; dot_y L - dot_size L / 2;
                                   yellow_x L + dot_size L / 2; dot_y L + dot_size L / 2]
                              (named "#FFBD2E");
  do img <- ImageDraw.ellipse img [green_x L - dot_size L / 2; dot_y L - dot_size L / 2;
                                   green_x L + dot_size L / 2; dot_y L + dot_size L / 2]
                              (named "#28CA42");
  do img <- ImageDraw.rectangle img [cursor_x L; cursor_y L;
                                     cursor_x L + cursor_width L;
                                     cursor_y L + cursor_height L]
                                (named "#00FF41");
  Py.ret img.

(** What [create_icon(size, filename)] returns. *)
Definition render (size : Z) : Result Image :=
  fst (create_icon size "" Py.with_pil).

(** The body of the loop of [main]. *)
Definition main_body (spec : Z * string) : Py.M unit :=
  let '(size, filename) := spec in
  exec Py.print ("  Creating " +:+ filename +:+ " (" +:+ Py.str size +:+ "x"
                 +:+ Py.str size +:+ ")");
  do icon <- create_icon size filename;
  Py.save icon (OsPath.join output_dir filename).

Definition main : Py.M unit :=
  exec Py.print "🎨 Generating app icons...";
  exec Py.for_each ICON_SIZES main_body;
  exec Py.print "✅ All icons generated successfully!";
  exec Py.print (String "010" "Next steps:");
  exec Py.print "1. Open Xcode";
  exec Py.print "2. The icons should now appear in Assets.xcassets > AppIcon";
  exec Py.print "3. Build and archive again";
  Py.ret tt.

(** Running the file: the unguarded import, then [main()]. *)
Definition script : Py.M unit :=
  do ok <- Py.can_import_PIL;
  if ok then main else Py.raise ImportError.

End GenerateIcons.

(** ** What a run leaves on disk and on stdout *)

(** The path an icon is saved to. *)
Definition icon_path (filename : string) : string :=
  OsPath.join output_dir filename.

(** The progress line of a table entry. *)
Definition creating (spec : Z * string) : string :=
  ("  Creating " +:+ snd spec +:+ " (" +:+ Py.str (fst spec) +:+ "x"
   +:+ Py.str (fst spec) +:+ ")")%string.

Definition rendered_A (size : Z) : option PIL.Image :=
  match ExtractIcons.render size with
  | Ok (Some img) => Some img
  | _ => None
  end.

Definition rendered_B (size : Z) : option PIL.Image :=
  match GenerateIcons.render size with
  | Ok img => Some img
  | _ => None
  end.

(** The file system after the icon of one entry is saved as PNG. *)
Definition store (rendered : Z -> option PIL.Image) (fs : gmap string PIL.File)
    (spec : Z * string) : gmap string PIL.File :=
  match rendered (fst spec) with
  | Some img => <[icon_path (snd spec) := PIL.mkFile "PNG" img]> fs
  | None => fs
  end.

(** One round of either loop, once the icon [img] is there. *)
Definition iteration (img : PIL.Image) (spec : Z * string) : Py.M unit :=
  exec Py.print (creating spec);
  Py.save img (icon_path (snd spec)).

(** An entry that can be rendered and saved in the world [w]. *)
Definition writable (w : Py.World) (spec : Z * string) : Prop :=
  0 <= fst spec /\ PIL.format_of (icon_path (snd spec)) = Some "PNG"%string /\
  Py.is_locked (icon_path (snd spec)) w = false.

(** A run that wrote one PNG file per entry of [specs]: the paths are
    pairwise different, each entry's file holds the image rendered at its
    size, sits under [output_dir] by its file name, and no other path
    changed. *)
Definition one_file_per_entry (rendered : Z -> option PIL.Image)
    (specs : list (Z * string)) (before after : gmap string PIL.File) : Prop :=
  NoDup (map (fun spec => icon_path (snd spec)) specs) /\
  (forall size filename, (size, filename) ∈ specs ->
     icon_path filename = (output_dir +:+ "/" +:+ filename)%string /\
     20 <= size <= 1024 /\
     exists img, rendered size = Some img /\ PIL.size img = (size, size) /\
                 after !! icon_path filename = Some (PIL.mkFile "PNG" img)) /\
  (forall fp, fp ∉ map (fun spec => icon_path (snd spec)) specs ->
              after !! fp = before !! fp).

(** The share of the canvas side a frame side takes. *)
Definition proportion (side size : Z) : Q := (inject_Z side / inject_Z size)%Q.

(** A machine with Pillow where the file of the second entry of
    [extract-icons.py] cannot be opened. *)
Definition second_locked : Py.World :=
  Py.mkWorld true false [] ∅ [icon_path "Icon-20@2x.png"].

(** The world after the loop has run through [specs] without a failure. *)
Definition after_loop (rendered : Z -> option PIL.Image) (specs : list (Z * string))
    (w : Py.World) : Py.World :=
  Py.mkWorld (Py.pil_installed w) (Py.HAS_PIL w)
             (Py.stdout w ++ map creating specs)
             (foldl (store rendered) (Py.files w) specs)
             (Py.locked w).

(** ** Boxes *)




(** * Properties *)

(** ** Rounding *)

Section FloatFacts.
Import Float.

Lemma round_small m e : 0 <= m < 2 ^ 53 -> round m e = mk m e.
Proof.
  intros Hm. unfold round.
  assert (Hb : Z.log2 (Z.abs m) + 1 <= prec).
  { rewrite Z.abs_eq by lia. unfold prec.
    destruct (Z.eq_dec m 0) as [-> | Hne]; [cbn; lia |].
    assert (Z.log2 m < 53) by (apply Z.log2_lt_pow2; lia). lia. }
  apply Z.leb_le in Hb. now rewrite Hb.
Qed.

Lemma of_int_small n : 0 <= n < 2 ^ 53 -> of_int n = mk n 0.
Proof. apply round_small. Qed.

(** The shape of a rounded product [p * 2 ^ (- e)]: its integer part is
    [r / 2 ^ e] for a multiple [r] of the rounding unit [u] at most [u / 2]
    away from [p], and [p] has 53 bits in units of [u]. *)
Lemma round_shape p e :
  0 <= p < 2 ^ (53 + e) -> 0 <= e ->
  exists r u,
    to_int (round p (- e)) = r / 2 ^ e /\
    0 < u /\ (u | r) /\ (u | 2 ^ e) /\
    2 * Z.abs (r - p) <= u /\
    p < u * 2 ^ 53 /\
    (u = 1 /\ r = p \/ u * 2 ^ 52 <= p).
Proof.
  intros [Hp0 Hp] He. unfold round, prec. rewrite Z.abs_eq by lia.
  destruct (Z.leb_spec (Z.log2 p + 1) 53) as [Hb | Hb].
  - exists p, 1. unfold to_int; cbn [expo mant].
    assert (Hp53 : p < 2 ^ 53).
    { destruct (Z.eq_dec p 0) as [-> | Hne]; [reflexivity |].
      apply Z.log2_lt_pow2; lia. }
    repeat split; try lia.
    + destruct (Z.leb_spec 0 (- e)).
      * replace e with 0 by lia. cbn. rewrite Z.div_1_r. lia.
      * rewrite Z.opp_involutive. apply Z.quot_div_nonneg; [lia |].
        apply Z.pow_pos_nonneg; lia.
    + apply Z.divide_1_l.
    + apply Z.divide_1_l.
  - set (sh := Z.log2 p + 1 - 53) in *.
    assert (Hsh : 0 < sh) by lia.
    assert (Hpos : 0 < p).
    { destruct (Z.eq_dec p 0) as [-> | Hne]; [cbn in Hb; lia | lia]. }
    assert (Hshe : sh <= e).
    { assert (Z.log2 p < 53 + e) by (apply Z.log2_lt_pow2; lia). lia. }
    pose proof (Z.log2_spec p Hpos) as [Hlo Hhi].
    replace (Z.log2 p) with (sh + 52) in Hlo by lia.
    replace (Z.succ (Z.log2 p)) with (sh + 53) in Hhi by lia.
    rewrite Z.pow_add_r in Hlo, Hhi by lia.
    assert (Hu : 0 < 2 ^ sh) by (apply Z.pow_pos_nonneg; lia).
    set (u := 2 ^ sh) in *.
    assert (Hhalf : 2 * 2 ^ (sh - 1) = u).
    { assert (Hu' : u = 2 ^ (1 + (sh - 1))) by (unfold u; f_equal; lia).
      rewrite Z.pow_add_r in Hu' by lia. rewrite Hu'. reflexivity. }
    set (half := 2 ^ (sh - 1)) in *.
    pose proof (Z.div_mod p u ltac:(lia)) as Hdm.
    pose proof (Z.mod_pos_bound p u Hu) as Hr.
    set (q := p / u) in *. set (r := p mod u) in *.
    assert (Hsgn : Z.sgn p = 1) by (apply Z.sgn_pos; lia).
    rewrite Hsgn, Z.mul_1_l.
    set (q' := if (half <? r) || ((r =? half) && Z.odd q) then q + 1 else q).
    assert (Hq' : q' = q /\ r <= half \/ q' = q + 1 /\ half <= r).
    { unfold q'. destruct (Z.ltb_spec half r); cbn [orb]; [right; lia |].
      destruct (Z.eqb_spec r half); cbn [andb]; [| left; lia].
      destruct (Z.odd q); [right; lia | left; lia]. }
    clearbody q'.
    assert (Hq0 : 0 <= q) by (apply Z.div_pos; lia).
    assert (Hdiv : (u | 2 ^ e)).
    { exists (2 ^ (e - sh)). unfold u. rewrite <- Z.pow_add_r by lia.
      f_equal. lia. }
    exists (q' * u), u. repeat split.
    + unfold to_int; cbn [expo mant].
      destruct (Z.leb_spec 0 (- e + sh)).
      * replace (- e + sh) with 0 by lia. replace e with sh by lia.
        fold u. cbn. rewrite Z.div_mul by lia. lia.
      * rewrite Z.quot_div_nonneg;
          [| lia | apply Z.pow_pos_nonneg; lia].
        replace (- (- e + sh)) with (e - sh) by lia.
        replace (2 ^ e) with (2 ^ (e - sh) * u).
        2:{ unfold u. rewrite <- Z.pow_add_r by lia. f_equal. lia. }
        rewrite Z.div_mul_cancel_r; [reflexivity | | lia].
        apply Z.pow_nonzero; lia.
    + lia.
    + exists q'. reflexivity.
    + exact Hdiv.
    + destruct Hq' as [[-> ?] | [-> ?]]; lia.
    + lia.
    + right. lia.
Qed.

(** [int(n * c)] from below: it reaches [k] as soon as the exact product
    is at most half a unit in the last place below [k]. *)
Lemma int_imul_ge n c k :
  0 <= n < 2 ^ 53 -> small_const c ->
  k * 2 ^ (54 - expo c) <= n * mant c * (2 ^ 54 + 1) ->
  k <= int (n *~ c).
Proof.
  intros Hn [Hm He] Hk. unfold imul, mul. rewrite of_int_small by exact Hn.
  cbn [mant expo]. destruct c as [m e']; cbn [mant expo] in *.
  set (e := - e') in *. replace (0 + e') with (- e) by (unfold e; lia).
  assert (He0 : 53 <= e) by (unfold e; lia).
  replace (54 - e') with (54 + e) in Hk by (unfold e; lia).
  rewrite Z.pow_add_r in Hk by lia.
  assert (Hpe : 2 ^ 53 <= 2 ^ e) by (apply Z.pow_le_mono_r; lia).
  assert (Hp : 0 <= n * m < 2 ^ (53 + e)).
  { rewrite Z.pow_add_r by lia. nia. }
  destruct (round_shape (n * m) e Hp ltac:(lia))
    as (r & u & -> & Hu & [a ->] & [b Hb] & Habs & Hhi & _).
  apply Z.div_le_lower_bound; [lia |].
  rewrite Hb in *.
  assert (Hlt : k * (b * u) < a * u + u) by lia.
  assert (k * b < a + 1) by nia.
  nia.
Qed.

(** [int(n * c)] from above. *)
Lemma int_imul_le n c k :
  0 <= n < 2 ^ 53 -> small_const c ->
  n * mant c * (2 ^ 53 + 1) < (k + 1) * 2 ^ (53 - expo c) ->
  int (n *~ c) <= k.
Proof.
  intros Hn [Hm He] Hk. unfold imul, mul. rewrite of_int_small by exact Hn.
  cbn [mant expo]. destruct c as [m e']; cbn [mant expo] in *.
  set (e := - e') in *. replace (0 + e') with (- e) by (unfold e; lia).
  assert (He0 : 53 <= e) by (unfold e; lia).
  replace (53 - e') with (53 + e) in Hk by (unfold e; lia).
  rewrite Z.pow_add_r in Hk by lia.
  assert (Hpe : 2 ^ 53 <= 2 ^ e) by (apply Z.pow_le_mono_r; lia).
  assert (Hp : 0 <= n * m < 2 ^ (53 + e)).
  { rewrite Z.pow_add_r by lia. nia. }
  destruct (round_shape (n * m) e Hp ltac:(lia))
    as (r & u & -> & Hu & _ & _ & Habs & _ & Hlo).
  assert (Hr : r < (k + 1) * 2 ^ e) by (destruct Hlo as [[-> ->] | Hlo]; lia).
  assert (He2 : 0 < 2 ^ e) by lia.
  apply Z.lt_succ_r. apply Z.div_lt_upper_bound; lia.
Qed.

End FloatFacts.

(** Closed powers of two are evaluated before arithmetic is decided. *)
Ltac eval_pow :=
  repeat match goal with
         | |- context [Z.pow ?a ?b] =>
             let v := eval vm_compute in (Z.pow a b) in
             progress change (Z.pow a b) with v
         | H : context [Z.pow ?a ?b] |- _ =>
             let v := eval vm_compute in (Z.pow a b) in
             progress change (Z.pow a b) with v in H
         end.

Ltac small_const := split; cbn [Float.mant Float.expo]; eval_pow; lia.

(** Decide [k <= int (n *~ c)] or [int (n *~ c) <= k] for a literal [c] from
    linear facts about [n] and [k] in the context. *)
Ltac float_bound :=
  match goal with
  | |- _ <= Float.to_int (Float.imul _ _) => apply int_imul_ge
  | |- Float.to_int (Float.imul _ _) <= _ => apply int_imul_le
  end;
  [ eval_pow; lia | small_const | cbn [Float.mant Float.expo]; cbn [Z.sub Z.opp Z.add Z.pos_sub Pos.add Pos.succ Pos.add_carry Pos.pred_double Z.succ_double Z.pred_double Z.double]; eval_pow; lia ].

Section FloatChecks.

(** The literals of [extract-icons.py] are the doubles CPython reads them
    as (mantissa and exponent of [float.hex]). *)
Example literals :
  [0.8; 0.08; 0.15; 0.4; 0.3; 0.35; 0.12; 0.75; 0.55; 0.03; 0.02; 0.2]%pyfloat =
  [Float.mk 7205759403792794 (-53); Float.mk 5764607523034235 (-56);
   Float.mk 5404319552844595 (-55); Float.mk 7205759403792794 (-54);
   Float.mk 5404319552844595 (-54); Float.mk 6305039478318694 (-54);
   Float.mk 8646911284551352 (-56); Float.mk 6755399441055744 (-53);
   Float.mk 4953959590107546 (-53); Float.mk 8646911284551352 (-58);
   Float.mk 5764607523034235 (-58); Float.mk 7205759403792794 (-55)].
Proof. reflexivity. Qed.

Example literals_small :
  Forall Float.small_const
    [0.8; 0.08; 0.15; 0.4; 0.3; 0.35; 0.12; 0.75; 0.55; 0.03; 0.02; 0.2]%pyfloat.
Proof. repeat (constructor; [small_const |]). constructor. Qed.

(** On every side up to 4096 pixels, each product of the source is the one
    IEEE 754 multiplication gives. *)
Example products_agree :
  forallb (fun c => forallb (Float.agrees c) (Py.range 4097))
    [0.8; 0.08; 0.15; 0.4; 0.3; 0.35; 0.12; 0.75; 0.55; 0.03; 0.02; 0.2]%pyfloat
  = true.
Proof. vm_compute. reflexivity. Qed.

(** Products whose decimal value is not the floor of the exact one. *)
Example int_180_times_0_35 : int (180 *~ 0.35) = 62.
Proof. reflexivity. Qed.

(** The geometry of the largest icon, as CPython computes it. *)
Example layout_A_1024 :
  ExtractIcons.dimensions (ExtractIcons.layout 1024) = [819; 65; 122; 18; 286; 8; 42; 5].
Proof. reflexivity. Qed.

End FloatChecks.

Section LayoutArithmetic.

(** [int(size * 0.8)] is the floor of [4 * size / 5]. *)
Lemma int_mul_0_8 s : 0 <= s < 2 ^ 50 -> int (s *~ 0.8) = 4 * s / 5.
Proof.
  intros Hs. pose proof (Z.div_mod (4 * s) 5 ltac:(lia)) as Hdm.
  pose proof (Z.mod_pos_bound (4 * s) 5 ltac:(lia)) as Hr.
  set (k := 4 * s / 5) in *. clearbody k.
  apply Z.le_antisymm; float_bound.
Qed.

Import ExtractIcons.

(** The chain of products behind the fields of variant A. *)
Lemma layout_A_chain s :
  0 <= s < 2 ^ 50 ->
  let L := layout s in
  frame_size L = 4 * s / 5 /\
  header_height L = int (frame_size L *~ 0.15) /\
  logo_size L = int (frame_size L *~ 0.35) /\
  0 <= header_height L <= frame_size L /\
  0 <= logo_size L <= frame_size L.
Proof.
  intros Hs L. subst L. unfold layout; cbn [frame_size header_height logo_size].
  rewrite (int_mul_0_8 s Hs).
  assert (HF : 0 <= 4 * s / 5 <= s).
  { split; [apply Z.div_pos; lia |]. apply Z.div_le_upper_bound; lia. }
  set (F := 4 * s / 5) in *. clearbody F.
  repeat split; try float_bound.
Qed.

(** Variant A: which dimensions are floored, and from which size on
    every dimension is at least one. *)
Lemma layout_A_dimensions s :
  0 <= s < 2 ^ 50 ->
  nonnegative (layout s) /\
  1 <= cursor_width (layout s) /\
  1 <= dot_radius (layout s) /\
  (positive (layout s) <-> 59 <= s).
Proof.
  intros Hs. unfold nonnegative, positive, dimensions, layout.
  cbn [frame_size corner_radius header_height button_radius logo_size
       cursor_width cursor_height dot_radius].
  rewrite (int_mul_0_8 s Hs).
  pose proof (Z.div_mod (4 * s) 5 ltac:(lia)) as Hdm.
  pose proof (Z.mod_pos_bound (4 * s) 5 ltac:(lia)) as Hr.
  set (F := 4 * s / 5) in *. clearbody F.
  assert (HH : 0 <= int (F *~ 0.15) <= F) by (split; float_bound).
  assert (HH7 : 47 <= F -> 7 <= int (F *~ 0.15)) by (intros; float_bound).
  assert (HH6 : F <= 46 -> int (F *~ 0.15) <= 6) by (intros; float_bound).
  assert (HH1 : 47 <= F -> 1 <= int (F *~ 0.08)) by (intros; float_bound).
  assert (HC0 : 0 <= int (F *~ 0.08)) by float_bound.
  assert (HL : 0 <= int (F *~ 0.35) <= F) by (split; float_bound).
  assert (HL7 : 47 <= F -> 7 <= int (F *~ 0.35)) by (intros; float_bound).
  set (H := int (F *~ 0.15)) in *. clearbody H.
  set (G := int (F *~ 0.35)) in *. clearbody G.
  assert (HB0 : 0 <= int (H *~ 0.15)) by float_bound.
  assert (HB1 : 7 <= H -> 1 <= int (H *~ 0.15)) by (intros; float_bound).
  assert (HB : H <= 6 -> int (H *~ 0.15) <= 0) by (intros; float_bound).
  assert (HK0 : 0 <= int (G *~ 0.15)) by float_bound.
  assert (HK1 : 7 <= G -> 1 <= int (G *~ 0.15)) by (intros; float_bound).
  rewrite !Forall_cons, !Forall_nil.
  repeat split; try lia.
Qed.


(** Variant B: the same facts for its integer divisions. *)
Lemma layout_B_dimensions s :
  0 <= s ->
  GenerateIcons.nonnegative (GenerateIcons.layout s) /\
  (1 <= s -> 1 <= GenerateIcons.rect_size (GenerateIcons.layout s)) /\
  (GenerateIcons.positive (GenerateIcons.layout s) <-> 32 <= s) /\
  (1 <= GenerateIcons.dot_size (GenerateIcons.layout s) / 2 <-> 64 <= s).
Proof.
  intros Hs.
  unfold GenerateIcons.nonnegative, GenerateIcons.positive,
    GenerateIcons.dimensions, GenerateIcons.layout.
  cbn [GenerateIcons.margin GenerateIcons.rect_size GenerateIcons.radius
       GenerateIcons.header_height GenerateIcons.dot_size
       GenerateIcons.cursor_width GenerateIcons.cursor_height].
  rewrite !Forall_cons, !Forall_nil.
  repeat split; intros; Z.div_mod_to_equations; lia.
Qed.


End LayoutArithmetic.

(** ** Proportions *)

Section Proportions.

(** A share of the canvas compared with a fraction, in whole pixels. *)
Lemma proportion_error side s p q k :
  0 < s ->
  (Qabs (proportion side s - (p # q)) <= inject_Z k / inject_Z s)%Q <->
  Z.abs (Zpos q * side - p * s) <= k * Zpos q.
Proof.
  intros Hs. destruct s as [| s' | s']; try lia.
  rewrite Qabs_Qle_condition.
  unfold proportion, Qdiv, Qinv, Qle, Qminus, Qplus, Qopp, Qmult, inject_Z.
  cbn [Qnum Qden]. rewrite ?Pos.mul_1_l, ?Z.mul_1_r, ?Pos2Z.inj_mul.
  split; intros; nia.
Qed.

End Proportions.

(** ** The render functions *)

(** Unfold the monad and the Pillow wrappers, leaving the geometry folded. *)
Ltac run_py :=
  cbv beta iota zeta delta
    [Py.bind Py.ret Py.lift Py.raise Py.get_HAS_PIL Py.print Py.for_fold
     Image.new ImageDraw.rectangle ImageDraw.rounded_rectangle
     ImageDraw.ellipse ImageDraw.ellipse_outline
     PIL.new PIL.draw_rectangle PIL.draw_rounded_rectangle PIL.draw_ellipse
     PIL.draw_ellipse_outline PIL.draw Result_bind fst snd
     Py.with_pil negb orb
     PIL.mode PIL.size PIL.color PIL.calls app];
  repeat match goal with
         | |- context [PIL.ink ?c] =>
             let v := eval vm_compute in (PIL.ink c) in
             progress change (PIL.ink c) with v
         end;
  cbn [Py.HAS_PIL Py.pil_installed Py.stdout Py.files Py.locked].

Section Render.
Import PIL.

(** With Pillow imported, [create_terminal_icon] returns [render size] and
    leaves the world as it is. *)
Lemma create_terminal_icon_pure size w :
  Py.HAS_PIL w = true ->
  ExtractIcons.create_terminal_icon size w = (ExtractIcons.render size, w).
Proof.
  intros Hpil. unfold ExtractIcons.render, ExtractIcons.create_terminal_icon.
  change (Py.range 3) with [0; 1; 2].
  run_py. rewrite Hpil. destruct (size <? 0); run_py; reflexivity.
Qed.

Lemma create_icon_pure size filename w :
  GenerateIcons.create_icon size filename w = (GenerateIcons.render size, w).
Proof.
  unfold GenerateIcons.render, GenerateIcons.create_icon.
  run_py. destruct (size <? 0); run_py; reflexivity.
Qed.

(** The image variant A draws. *)
Lemma render_A size :
  0 <= size ->
  let L := ExtractIcons.layout size in
  let r := ExtractIcons.button_radius L in
  let y := ExtractIcons.button_y L in
  let d := ExtractIcons.dot_radius L in
  let t := ExtractIcons.c_thickness L in
  let cx := ExtractIcons.c_center_x L in
  let cy := ExtractIcons.c_center_y L in
  let dot i := [ExtractIcons.dot_x L i - d; ExtractIcons.dot_y L - d;
                ExtractIcons.dot_x L i + d; ExtractIcons.dot_y L + d] in
  ExtractIcons.render size =
  Ok (Some (mkImage "RGB" (size, size) (0, 0, 0)
    [ rectangle [0; 0; size; size] (26, 26, 26);
      rounded_rectangle
        [ExtractIcons.frame_x L; ExtractIcons.frame_y L;
         ExtractIcons.frame_x L + ExtractIcons.frame_size L;
         ExtractIcons.frame_y L + ExtractIcons.frame_size L]
        (ExtractIcons.corner_radius L) (30, 30, 30);
      rounded_rectangle
        [ExtractIcons.frame_x L; ExtractIcons.frame_y L;
         ExtractIcons.frame_x L + ExtractIcons.frame_size L;
         ExtractIcons.frame_y L + ExtractIcons.header_height L]
        (ExtractIcons.corner_radius L) (45, 45, 45);
      ellipse [ExtractIcons.start_x L - r; y - r; ExtractIcons.start_x L + r; y + r]
              (Some (255, 95, 87)) None 1;
      ellipse [ExtractIcons.yellow_x L - r; y - r; ExtractIcons.yellow_x L + r; y + r]
              (Some (255, 189, 46)) None 1;
      ellipse [ExtractIcons.green_x L - r; y - r; ExtractIcons.green_x L + r; y + r]
              (Some (40, 202, 66)) None 1;
      ellipse [cx - ExtractIcons.c_radius L - t / 2; cy - ExtractIcons.c_radius L - t / 2;
               cx + ExtractIcons.c_radius L + t / 2; cy + ExtractIcons.c_radius L + t / 2]
              None (Some (0, 255, 136)) t;
      rectangle [cx; cy - ExtractIcons.gap_width L / 2;
                 cx + ExtractIcons.c_radius L + t; cy + ExtractIcons.gap_width L / 2]
                (30, 30, 30);
      rectangle [ExtractIcons.cursor_x L; ExtractIcons.cursor_y L;
                 ExtractIcons.cursor_x L + ExtractIcons.cursor_width L;
                 ExtractIcons.cursor_y L + ExtractIcons.cursor_height L]
                (0, 255, 136);
      ellipse (dot 0) (Some (0, 255, 136)) None 1;
      ellipse (dot 1) (Some (102, 102, 102)) None 1;
      ellipse (dot 2) (Some (102, 102, 102)) None 1 ])).
Proof.
  intros Hs. unfold ExtractIcons.render, ExtractIcons.create_terminal_icon.
  change (Py.range 3) with [0; 1; 2].
  assert (Hneg : (size <? 0) = false) by lia.
  run_py. rewrite Hneg. run_py. reflexivity.
Qed.

(** The image variant B draws. *)
Lemma render_B size :
  0 <= size ->
  let L := GenerateIcons.layout size in
  let h := GenerateIcons.dot_size L / 2 in
  let y := GenerateIcons.dot_y L in
  let m := GenerateIcons.margin L in
  GenerateIcons.render size =
  Ok (mkImage "RGB" (size, size) (0, 122, 255)
    [ rounded_rectangle [m; m; m + GenerateIcons.rect_size L; m + GenerateIcons.rect_size L]
                        (GenerateIcons.radius L) (28, 28, 30);
      rounded_rectangle [m; m; m + GenerateIcons.rect_size L;
                         m + GenerateIcons.header_height L]
                        (GenerateIcons.radius L) (44, 44, 46);
      ellipse [GenerateIcons.red_x L - h; y - h; GenerateIcons.red_x L + h; y + h]
              (Some (255, 95, 87)) None 1;
      ellipse [GenerateIcons.yellow_x L - h; y - h; GenerateIcons.yellow_x L + h; y + h]
              (Some (255, 189, 46)) None 1;
      ellipse [GenerateIcons.green_x L - h; y - h; GenerateIcons.green_x L + h; y + h]
              (Some (40, 202, 66)) None 1;
      rectangle [GenerateIcons.cursor_x L; GenerateIcons.cursor_y L;
                 GenerateIcons.cursor_x L + GenerateIcons.cursor_width L;
                 GenerateIcons.cursor_y L + GenerateIcons.cursor_height L]
                (0, 255, 65) ]).
Proof.
  intros Hs. unfold GenerateIcons.render, GenerateIcons.create_icon.
  assert (Hneg : (size <? 0) = false) by lia.
  run_py. rewrite Hneg. run_py. reflexivity.
Qed.

End Render.

(** ** The batch drivers *)

Section Driver.

Lemma save_written img fp fmt w :
  PIL.format_of fp = Some fmt -> Py.is_locked fp w = false ->
  Py.save img fp w = (Ok tt, Py.set_files (<[fp := PIL.mkFile fmt img]> (Py.files w)) w).
Proof. intros Hf Hl. unfold Py.save. now rewrite Hf, Hl. Qed.

Lemma save_refused img fp fmt w :
  PIL.format_of fp = Some fmt -> Py.is_locked fp w = true ->
  Py.save img fp w = (Raise OSError, w).
Proof. intros Hf Hl. unfold Py.save. now rewrite Hf, Hl. Qed.

Lemma for_each_app {A} (l1 l2 : list A) body w :
  Py.for_each (l1 ++ l2) body w =
  match Py.for_each l1 body w with
  | (Ok _, w') => Py.for_each l2 body w'
  | (Raise e, w') => (Raise e, w')
  end.
Proof.
  revert w. induction l1 as [| x l1 IH]; intros w; [reflexivity |].
  cbn [app Py.for_each]. unfold Py.bind.
  destruct (body x w) as [[[] | e] w1]; [apply IH | reflexivity].
Qed.

(** The two loops share their shape: [good] is what the body needs of the
    world ([HAS_PIL] in variant A, nothing in variant B). *)
Variable body : Z * string -> Py.M unit.
Variable rendered : Z -> option PIL.Image.
Variable good : bool -> Prop.

Hypothesis body_iteration : forall spec img w,
  good (Py.HAS_PIL w) -> rendered (fst spec) = Some img ->
  body spec w = iteration img spec w.
Hypothesis rendered_some : forall size, 0 <= size -> is_Some (rendered size).

Lemma body_written spec w :
  good (Py.HAS_PIL w) -> writable w spec ->
  body spec w = (Ok tt, after_loop rendered [spec] w).
Proof.
  intros Hg (Hs & Hf & Hl). destruct (rendered_some _ Hs) as [img Himg].
  rewrite (body_iteration spec img w Hg Himg).
  unfold iteration, Py.bind, Py.print.
  erewrite save_written by (exact Hf || exact Hl).
  unfold after_loop. cbn [map foldl]. unfold store. rewrite Himg. reflexivity.
Qed.

Lemma body_refused spec w :
  good (Py.HAS_PIL w) -> 0 <= fst spec ->
  PIL.format_of (icon_path (snd spec)) = Some "PNG"%string ->
  Py.is_locked (icon_path (snd spec)) w = true ->
  body spec w = (Raise OSError, Py.add_stdout [creating spec] w).
Proof.
  intros Hg Hs Hf Hl. destruct (rendered_some _ Hs) as [img Himg].
  rewrite (body_iteration spec img w Hg Himg).
  unfold iteration, Py.bind, Py.print.
  erewrite save_refused by (exact Hf || exact Hl). reflexivity.
Qed.

Lemma after_loop_cons spec specs w :
  after_loop rendered specs (after_loop rendered [spec] w) =
  after_loop rendered (spec :: specs) w.
Proof.
  unfold after_loop. cbn [Py.pil_installed Py.HAS_PIL Py.stdout Py.files Py.locked map foldl].
  now rewrite <- app_assoc.
Qed.

(** Every entry writable: the loop runs to its end. *)
Lemma loop_completes specs w :
  good (Py.HAS_PIL w) -> Forall (writable w) specs ->
  Py.for_each specs body w = (Ok tt, after_loop rendered specs w).
Proof.
  revert w. induction specs as [| spec specs IH]; intros w Hg Hall.
  - destruct w. unfold after_loop. cbn. now rewrite app_nil_r.
  - apply Forall_cons in Hall as [Hspec Hall].
    cbn [Py.for_each]. unfold Py.bind. rewrite (body_written spec w Hg Hspec).
    rewrite IH; [now rewrite after_loop_cons | exact Hg | exact Hall].
Qed.

(** The first entry whose file cannot be opened ends the loop. *)
Lemma loop_aborts pre spec post w :
  good (Py.HAS_PIL w) -> Forall (writable w) pre ->
  0 <= fst spec ->
  PIL.format_of (icon_path (snd spec)) = Some "PNG"%string ->
  Py.is_locked (icon_path (snd spec)) w = true ->
  Py.for_each (pre ++ spec :: post) body w =
  (Raise OSError, Py.add_stdout [creating spec] (after_loop rendered pre w)).
Proof.
  intros Hg Hpre Hs Hf Hl. rewrite for_each_app, (loop_completes pre w Hg Hpre).
  cbn [Py.for_each]. unfold Py.bind.
  rewrite body_refused; [reflexivity | exact Hg | exact Hs | exact Hf | exact Hl].
Qed.

End Driver.

Section Scripts.

Lemma rendered_A_some size : 0 <= size -> is_Some (rendered_A size).
Proof. intros Hs. unfold rendered_A. rewrite (render_A size Hs). eauto. Qed.

Lemma rendered_B_some size : 0 <= size -> is_Some (rendered_B size).
Proof. intros Hs. unfold rendered_B. rewrite (render_B size Hs). eauto. Qed.

Lemma main_body_A spec img w :
  Py.HAS_PIL w = true -> rendered_A (fst spec) = Some img ->
  ExtractIcons.main_body spec w = iteration img spec w.
Proof.
  intros Hpil Himg. destruct spec as [size filename]. cbn [fst] in Himg.
  unfold ExtractIcons.main_body, iteration, Py.bind, Py.print.
  rewrite create_terminal_icon_pure by exact Hpil.
  unfold rendered_A in Himg.
  destruct (ExtractIcons.render size) as [[img' |] | e]; [| discriminate ..].
  now inversion Himg.
Qed.

Lemma main_body_B spec img w :
  True -> rendered_B (fst spec) = Some img ->
  GenerateIcons.main_body spec w = iteration img spec w.
Proof.
  intros _ Himg. destruct spec as [size filename]. cbn [fst] in Himg.
  unfold GenerateIcons.main_body, iteration, Py.bind, Py.print.
  rewrite create_icon_pure.
  unfold rendered_B in Himg.
  destruct (GenerateIcons.render size) as [img' | e]; [| discriminate].
  now inversion Himg.
Qed.

(** Without [HAS_PIL] the render function prints its remedy and returns
    [None]. *)
Lemma create_terminal_icon_no_pil size w :
  Py.HAS_PIL w = false ->
  ExtractIcons.create_terminal_icon size w =
  (Ok None,
   Py.add_stdout ["❌ PIL/Pillow not available. Please install: pip3 install Pillow"%string] w).
Proof.
  intros Hpil. unfold ExtractIcons.create_terminal_icon, Py.bind, Py.get_HAS_PIL.
  rewrite Hpil. reflexivity.
Qed.

(** The entries of both tables are fit to be rendered and saved as PNG. *)
Lemma icon_specs_png :
  Forall (fun spec => 0 <= fst spec /\
                      PIL.format_of (icon_path (snd spec)) = Some "PNG"%string)
         ExtractIcons.icon_specs.
Proof.
  repeat (apply Forall_cons; split;
          [split; [cbn [fst]; lia | vm_compute; reflexivity] |]).
  constructor.
Qed.

Lemma ICON_SIZES_png :
  Forall (fun spec => 0 <= fst spec /\
                      PIL.format_of (icon_path (snd spec)) = Some "PNG"%string)
         GenerateIcons.ICON_SIZES.
Proof.
  repeat (apply Forall_cons; split;
          [split; [cbn [fst]; lia | vm_compute; reflexivity] |]).
  constructor.
Qed.

Lemma writable_of_unlocked specs w :
  Forall (fun spec => 0 <= fst spec /\
                      PIL.format_of (icon_path (snd spec)) = Some "PNG"%string) specs ->
  (forall spec, spec ∈ specs -> Py.is_locked (icon_path (snd spec)) w = false) ->
  Forall (writable w) specs.
Proof.
  intros Hpng Hfree. apply Forall_forall. intros spec Hin.
  rewrite Forall_forall in Hpng. destruct (Hpng spec Hin) as [Hs Hf].
  split; [exact Hs | split; [exact Hf | now apply Hfree]].
Qed.

(** Looking up the files the loop has stored. *)
Lemma store_other rendered specs fs fp :
  fp ∉ map (fun spec => icon_path (snd spec)) specs ->
  foldl (store rendered) fs specs !! fp = fs !! fp.
Proof.
  revert fs. induction specs as [| spec specs IH]; intros fs Hnot; [reflexivity |].
  cbn [map foldl] in *. apply not_elem_of_cons in Hnot as [Hne Hnot].
  rewrite IH by exact Hnot. unfold store.
  destruct (rendered (fst spec)); [| reflexivity].
  now rewrite lookup_insert_ne.
Qed.

Lemma store_lookup rendered specs fs spec img :
  NoDup (map (fun spec => icon_path (snd spec)) specs) ->
  spec ∈ specs -> rendered (fst spec) = Some img ->
  foldl (store rendered) fs specs !! icon_path (snd spec) = Some (PIL.mkFile "PNG" img).
Proof.
  revert fs. induction specs as [| spec' specs IH]; intros fs Hnd Hin Himg.
  - now apply elem_of_nil in Hin.
  - cbn [map foldl] in *. apply NoDup_cons in Hnd as [Hfresh Hnd].
    apply elem_of_cons in Hin as [-> | Hin].
    + rewrite store_other by exact Hfresh. unfold store. rewrite Himg.
      apply lookup_insert_eq.
    + now apply IH.
Qed.

Lemma icon_specs_paths_NoDup :
  NoDup (map (fun spec => icon_path (snd spec)) ExtractIcons.icon_specs).
Proof. refine (bool_decide_unpack _ _). vm_compute. exact I. Qed.

Lemma ICON_SIZES_paths_NoDup :
  NoDup (map (fun spec => icon_path (snd spec)) GenerateIcons.ICON_SIZES).
Proof. refine (bool_decide_unpack _ _). vm_compute. exact I. Qed.

(** [extract-icons.py] on a machine with Pillow, every file writable. *)
Lemma script_A_completes w :
  Py.pil_installed w = true ->
  (forall spec, spec ∈ ExtractIcons.icon_specs ->
                Py.is_locked (icon_path (snd spec)) w = false) ->
  ExtractIcons.script w =
  (Ok tt,
   Py.mkWorld true true
     (Py.stdout w ++ ["🎨 Generating Claude CLI iOS icons..."%string]
      ++ map creating ExtractIcons.icon_specs
      ++ ["✅ All icons generated!"; "📁 Icons saved to: " +:+ output_dir;
          String "010" "🚀 Next steps:"; "1. Open Xcode";
          "2. Build and Archive (Product > Archive)"; "3. Upload to TestFlight"]%string)
     (foldl (store rendered_A) (Py.files w) ExtractIcons.icon_specs)
     (Py.locked w)).
Proof.
  intros Hpil Hfree.
  unfold ExtractIcons.script, ExtractIcons.main, Py.bind, Py.can_import_PIL,
    Py.set_HAS_PIL, Py.get_HAS_PIL, Py.print, Py.ret.
  rewrite Hpil. cbn [Py.HAS_PIL negb].
  rewrite (loop_completes ExtractIcons.main_body rendered_A (fun b => b = true)
             main_body_A rendered_A_some).
  - unfold after_loop, Py.add_stdout.
    cbn [Py.pil_installed Py.HAS_PIL Py.stdout Py.files Py.locked].
    now rewrite <- !app_assoc.
  - reflexivity.
  - apply (writable_of_unlocked _ _ icon_specs_png). exact Hfree.
Qed.

(** [generate-icons.py] on a machine with Pillow, every file writable. *)
Lemma script_B_completes w :
  Py.pil_installed w = true ->
  (forall spec, spec ∈ GenerateIcons.ICON_SIZES ->
                Py.is_locked (icon_path (snd spec)) w = false) ->
  GenerateIcons.script w =
  (Ok tt,
   Py.mkWorld true (Py.HAS_PIL w)
     (Py.stdout w ++ ["🎨 Generating app icons..."%string]
      ++ map creating GenerateIcons.ICON_SIZES
      ++ ["✅ All icons generated successfully!"; String "010" "Next steps:";
          "1. Open Xcode";
          "2. The icons should now appear in Assets.xcassets > AppIcon";
          "3. Build and archive again"]%string)
     (foldl (store rendered_B) (Py.files w) GenerateIcons.ICON_SIZES)
     (Py.locked w)).
Proof.
  intros Hpil Hfree.
  unfold GenerateIcons.script, GenerateIcons.main, Py.bind, Py.can_import_PIL,
    Py.print, Py.ret.
  rewrite Hpil.
  rewrite (loop_completes GenerateIcons.main_body rendered_B (fun _ => True)
             main_body_B rendered_B_some).
  - unfold after_loop, Py.add_stdout.
    cbn [Py.pil_installed Py.HAS_PIL Py.stdout Py.files Py.locked].
    rewrite Hpil. now rewrite <- !app_assoc.
  - exact I.
  - apply (writable_of_unlocked _ _ ICON_SIZES_png). exact Hfree.
Qed.

(** [extract-icons.py] when the file of one entry cannot be opened. *)
Lemma script_A_aborts w pre spec post :
  Py.pil_installed w = true ->
  ExtractIcons.icon_specs = pre ++ spec :: post ->
  (forall spec', spec' ∈ pre -> Py.is_locked (icon_path (snd spec')) w = false) ->
  Py.is_locked (icon_path (snd spec)) w = true ->
  ExtractIcons.script w =
  (Raise OSError,
   Py.mkWorld true true
     (Py.stdout w ++ ["🎨 Generating Claude CLI iOS icons..."%string]
      ++ map creating (pre ++ [spec]))
     (foldl (store rendered_A) (Py.files w) pre)
     (Py.locked w)).
Proof.
  intros Hpil Hsplit Hfree Hlocked.
  pose proof icon_specs_png as Hpng. rewrite Hsplit in Hpng.
  apply Forall_app in Hpng as [Hpre Hrest].
  apply Forall_cons in Hrest as [[Hs Hf] _].
  unfold ExtractIcons.script, ExtractIcons.main, Py.bind, Py.can_import_PIL,
    Py.set_HAS_PIL, Py.get_HAS_PIL, Py.print, Py.ret.
  rewrite Hpil, Hsplit. cbn [Py.HAS_PIL negb].
  rewrite (loop_aborts ExtractIcons.main_body rendered_A (fun b => b = true)
             main_body_A rendered_A_some).
  - unfold after_loop, Py.add_stdout.
    cbn [Py.pil_installed Py.HAS_PIL Py.stdout Py.files Py.locked].
    rewrite map_app. cbn [map]. now rewrite <- !app_assoc.
  - reflexivity.
  - apply (writable_of_unlocked _ _ Hpre). exact Hfree.
  - exact Hs.
  - exact Hf.
  - exact Hlocked.
Qed.

(** The loop of [extract-icons.py] where it does go on: no image. *)
Lemma loop_A_without_image specs w :
  Py.HAS_PIL w = false ->
  Py.for_each specs ExtractIcons.main_body w =
  (Ok tt,
   Py.add_stdout
     (flat_map (fun spec =>
        [creating spec;
         "❌ PIL/Pillow not available. Please install: pip3 install Pillow";
         "  ❌ Failed to create " +:+ snd spec]%string) specs) w).
Proof.
  revert w. induction specs as [| [size filename] specs IH]; intros w Hpil.
  - destruct w. unfold Py.add_stdout. cbn. now rewrite app_nil_r.
  - cbn [Py.for_each flat_map]. unfold Py.bind at 1.
    unfold ExtractIcons.main_body, Py.bind, Py.print.
    rewrite create_terminal_icon_no_pil by exact Hpil.
    rewrite IH by exact Hpil.
    unfold Py.add_stdout.
    cbn [Py.pil_installed Py.HAS_PIL Py.stdout Py.files Py.locked app].
    rewrite <- !app_assoc. reflexivity.
Qed.

Lemma rendered_A_size size :
  0 <= size ->
  exists img, rendered_A size = Some img /\ PIL.size img = (size, size) /\
              PIL.mode img = "RGB"%string.
Proof.
  intros Hs. unfold rendered_A. rewrite (render_A size Hs). cbv zeta.
  eexists. split; [reflexivity |]. split; reflexivity.
Qed.

Lemma rendered_B_size size :
  0 <= size ->
  exists img, rendered_B size = Some img /\ PIL.size img = (size, size) /\
              PIL.mode img = "RGB"%string.
Proof.
  intros Hs. unfold rendered_B. rewrite (render_B size Hs). cbv zeta.
  eexists. split; [reflexivity |]. split; reflexivity.
Qed.

Lemma icon_specs_entries :
  Forall (fun spec => icon_path (snd spec) = (output_dir +:+ "/" +:+ snd spec)%string /\
                      20 <= fst spec <= 1024)
         ExtractIcons.icon_specs.
Proof.
  repeat (apply Forall_cons; split;
          [split; [vm_compute; reflexivity | cbn [fst]; lia] |]).
  constructor.
Qed.

Lemma ICON_SIZES_entries :
  Forall (fun spec => icon_path (snd spec) = (output_dir +:+ "/" +:+ snd spec)%string /\
                      20 <= fst spec <= 1024)
         GenerateIcons.ICON_SIZES.
Proof.
  repeat (apply Forall_cons; split;
          [split; [vm_compute; reflexivity | cbn [fst]; lia] |]).
  constructor.
Qed.

(** What the stored files look like when the paths are pairwise different. *)
Lemma stored_one_file_per_entry rendered specs fs :
  NoDup (map (fun spec => icon_path (snd spec)) specs) ->
  Forall (fun spec => icon_path (snd spec) = (output_dir +:+ "/" +:+ snd spec)%string /\
                      20 <= fst spec <= 1024) specs ->
  (forall size, 0 <= size ->
     exists img, rendered size = Some img /\ PIL.size img = (size, size) /\
                 PIL.mode img = "RGB"%string) ->
  one_file_per_entry rendered specs fs (foldl (store rendered) fs specs).
Proof.
  intros Hnd Hent Hren. split; [exact Hnd |]. split.
  - intros size filename Hin. rewrite Forall_forall in Hent.
    destruct (Hent _ Hin) as [Hpath Hrange]. cbn [fst snd] in Hpath, Hrange.
    destruct (Hren size ltac:(lia)) as (img & Himg & Hsize & _).
    split; [exact Hpath |]. split; [exact Hrange |].
    exists img. split; [exact Himg |]. split; [exact Hsize |].
    apply (store_lookup rendered specs fs (size, filename) img Hnd Hin Himg).
  - intros fp Hnot. now apply store_other.
Qed.

End Scripts.

(** * The claims *)

Section Claims.
Import PIL.

(** C1, as it stands, fails at the smallest size of the table: at 20 pixels
    variant A computes a button radius and a cursor height of 0, so not
    every dimension is at least 1. *)
Lemma layout_20_not_positive :
  1 <= 20 /\
  ExtractIcons.button_radius (ExtractIcons.layout 20) = 0 /\
  ExtractIcons.cursor_height (ExtractIcons.layout 20) = 0 /\
  ~ ExtractIcons.positive (ExtractIcons.layout 20).
Proof.
  split; [lia |]. split; [reflexivity |]. split; [reflexivity |].
  unfold ExtractIcons.positive, ExtractIcons.dimensions.
  rewrite !Forall_cons. intros (_ & _ & _ & Hb & _).
  vm_compute in Hb. apply Hb. reflexivity.
Qed.

(** C1, amended: for every size of at least 1, variant A floors the cursor
    width and the dot radius at 1 and variant B's frame side is at least 1;
    every other dimension is at least 0. All dimensions are at least 1
    exactly from size 59 on in variant A (sizes below 2^50) and from size
    32 on in variant B. *)
Theorem layout_dimensions (size : Z) :
  1 <= size ->
  (GenerateIcons.nonnegative (GenerateIcons.layout size) /\
   1 <= GenerateIcons.rect_size (GenerateIcons.layout size) /\
   (GenerateIcons.positive (GenerateIcons.layout size) <-> 32 <= size)) /\
  (size < 2 ^ 50 ->
   ExtractIcons.nonnegative (ExtractIcons.layout size) /\
   1 <= ExtractIcons.cursor_width (ExtractIcons.layout size) /\
   1 <= ExtractIcons.dot_radius (ExtractIcons.layout size) /\
   (ExtractIcons.positive (ExtractIcons.layout size) <-> 59 <= size)).
Proof.
  intros Hs. split.
  - destruct (layout_B_dimensions size ltac:(lia)) as (Hn & Hr & Hp & _).
    split; [exact Hn | split; [apply Hr; exact Hs | exact Hp]].
  - intros Hlt. apply layout_A_dimensions. lia.
Qed.

(** The theorem at size 59, the first where variant A has no zero. *)
Lemma layout_dimensions_witness :
  1 <= 59 /\
  ExtractIcons.positive (ExtractIcons.layout 59) /\
  GenerateIcons.positive (GenerateIcons.layout 59).
Proof.
  assert (H1 : 1 <= 59) by lia.
  destruct (layout_dimensions 59 H1) as [(_ & _ & HB) HA].
  destruct (HA ltac:(reflexivity)) as (_ & _ & _ & HA').
  split; [exact H1 | split; [apply HA' | apply HB]]; lia.
Defined.

(** C2, as it stands, fails: at 20 pixels variant B computes a dot size, a
    cursor width and a cursor height of 0. *)
Lemma layout_B_20_not_floored :
  GenerateIcons.dot_size (GenerateIcons.layout 20) = 0 /\
  GenerateIcons.cursor_width (GenerateIcons.layout 20) = 0 /\
  GenerateIcons.cursor_height (GenerateIcons.layout 20) = 0 /\
  ~ GenerateIcons.positive (GenerateIcons.layout 20).
Proof.
  split; [reflexivity |]. split; [reflexivity |]. split; [reflexivity |].
  unfold GenerateIcons.positive, GenerateIcons.dimensions.
  rewrite !Forall_cons. intros (_ & _ & _ & _ & Hd & _).
  vm_compute in Hd. apply Hd. reflexivity.
Qed.

(** C2, amended: [create_icon(20, filename)] computes margin 2, rect size
    16, corner radius 1 and header height 1, but dot size, cursor width and
    cursor height 0: nothing is floored. The three dots are drawn in the
    one-point box [2, 2, 2, 2] and the cursor in [3, 5, 3, 5]; every box
    still has [x0 <= x1] and [y0 <= y1]. *)
Theorem create_icon_20 (filename : string) (w : Py.World) :
  GenerateIcons.layout 20 = GenerateIcons.mkLayout 2 16 1 1 0 2 2 2 2 5 3 0 0 /\
  GenerateIcons.create_icon 20 filename w =
    (Ok (mkImage "RGB" (20, 20) (0, 122, 255)
           [ rounded_rectangle [2; 2; 18; 18] 1 (28, 28, 30);
             rounded_rectangle [2; 2; 18; 3] 1 (44, 44, 46);
             ellipse [2; 2; 2; 2] (Some (255, 95, 87)) None 1;
             ellipse [2; 2; 2; 2] (Some (255, 189, 46)) None 1;
             ellipse [2; 2; 2; 2] (Some (40, 202, 66)) None 1;
             rectangle [3; 5; 3; 5] (0, 255, 65) ]), w) /\
  forallb (fun c => ordered (box c))
          (match GenerateIcons.render 20 with Ok img => calls img | Raise _ => [] end)
    = true.
Proof.
  split; [reflexivity |]. split; [| reflexivity].
  rewrite create_icon_pure. reflexivity.
Qed.






(** C5, as it stands, fails: when the file of the second entry cannot be
    opened, [extract-icons.py] ends with the [OSError]; the third entry,
    whose file could be written, is never saved, and nothing is printed
    about the failure. *)
Lemma save_failure_skips_the_rest :
  fst (ExtractIcons.script second_locked) = Raise OSError /\
  Py.is_locked (icon_path "Icon-20@3x.png") second_locked = false /\
  Py.files (snd (ExtractIcons.script second_locked)) !! icon_path "Icon-20@3x.png"
    = None /\
  Py.stdout (snd (ExtractIcons.script second_locked)) =
    ["🎨 Generating Claude CLI iOS icons..."; "  Creating Icon-20.png (20x20)";
     "  Creating Icon-20@2x.png (40x40)"]%string.
Proof. vm_compute. repeat split. Qed.

(** C5, amended: the loop of variant A goes on to the next entry only when
    [create_terminal_icon] returns no image: it prints "Failed to create"
    and nothing is saved. A save that fails is not caught: the [OSError]
    leaves [main] at the first entry whose file cannot be opened, the
    entries before it are saved, that entry and the ones after it are not,
    and no count is returned. *)
Theorem save_failure_ends_batch :
  (forall specs w, Py.HAS_PIL w = false ->
     exists w',
       Py.for_each specs ExtractIcons.main_body w = (Ok tt, w') /\
       Py.files w' = Py.files w /\
       Py.stdout w' = Py.stdout w ++
         flat_map (fun spec =>
           [creating spec;
            "❌ PIL/Pillow not available. Please install: pip3 install Pillow";
            "  ❌ Failed to create " +:+ snd spec]%string) specs) /\
  (forall w pre spec post,
     Py.pil_installed w = true ->
     ExtractIcons.icon_specs = pre ++ spec :: post ->
     (forall spec', spec' ∈ pre -> Py.is_locked (icon_path (snd spec')) w = false) ->
     Py.is_locked (icon_path (snd spec)) w = true ->
     exists w',
       ExtractIcons.script w = (Raise OSError, w') /\
       Py.files w' = foldl (store rendered_A) (Py.files w) pre /\
       Py.stdout w' = Py.stdout w ++ ["🎨 Generating Claude CLI iOS icons..."%string]
                                 ++ map creating (pre ++ [spec]) /\
       (forall spec', spec' ∈ spec :: post ->
          Py.files w' !! icon_path (snd spec') = Py.files w !! icon_path (snd spec'))).
Proof.
  split.
  - intros specs w Hpil. eexists. split; [apply loop_A_without_image, Hpil |].
    split; reflexivity.
  - intros w pre spec post Hpil Hsplit Hfree Hlocked. eexists.
    split; [apply (script_A_aborts w pre spec post Hpil Hsplit Hfree Hlocked) |].
    cbn [Py.files Py.stdout]. split; [reflexivity |]. split; [reflexivity |].
    intros spec' Hin. apply store_other.
    pose proof icon_specs_paths_NoDup as Hnd. rewrite Hsplit, map_app in Hnd.
    apply NoDup_app in Hnd as (_ & Hdisj & _).
    intros Hpre. apply (Hdisj _ Hpre).
    apply (list_elem_of_fmap_2 (fun spec => icon_path (snd spec))) in Hin.
    exact Hin.
Qed.

(** The theorem in [second_locked]: only the first icon is on disk. *)
Lemma save_failure_ends_batch_witness :
  exists w',
    ExtractIcons.script second_locked = (Raise OSError, w') /\
    Py.files w' = foldl (store rendered_A) ∅ [(20, "Icon-20.png"%string)].
Proof.
  destruct (proj2 save_failure_ends_batch second_locked
              [(20, "Icon-20.png"%string)] (40, "Icon-20@2x.png"%string)
              (drop 2 ExtractIcons.icon_specs))
    as (w' & Hrun & Hfiles & _).
  - reflexivity.
  - reflexivity.
  - intros spec' Hin. apply list_elem_of_singleton in Hin. subst spec'.
    vm_compute. reflexivity.
  - vm_compute. reflexivity.
  - exists w'. split; [exact Hrun | exact Hfiles].
Defined.

(** C6: the table of variant A has 15 entries and that of variant B has 18,
    with sizes from 20 to 1024; when Pillow is there and no write fails,
    either script ends normally having written exactly one PNG file per
    entry, under the output directory, named by the entry's file name and
    holding the image rendered at the entry's size. *)
Theorem batch_writes_one_file_per_entry (w : Py.World) :
  Py.pil_installed w = true ->
  (length ExtractIcons.icon_specs = 15%nat /\
   20 ∈ map fst ExtractIcons.icon_specs /\ 1024 ∈ map fst ExtractIcons.icon_specs /\
   ((forall spec, spec ∈ ExtractIcons.icon_specs ->
                  Py.is_locked (icon_path (snd spec)) w = false) ->
    exists w',
      ExtractIcons.script w = (Ok tt, w') /\
      one_file_per_entry rendered_A ExtractIcons.icon_specs (Py.files w) (Py.files w'))) /\
  (length GenerateIcons.ICON_SIZES = 18%nat /\
   20 ∈ map fst GenerateIcons.ICON_SIZES /\ 1024 ∈ map fst GenerateIcons.ICON_SIZES /\
   ((forall spec, spec ∈ GenerateIcons.ICON_SIZES ->
                  Py.is_locked (icon_path (snd spec)) w = false) ->
    exists w',
      GenerateIcons.script w = (Ok tt, w') /\
      one_file_per_entry rendered_B GenerateIcons.ICON_SIZES (Py.files w) (Py.files w'))).
Proof.
  intros Hpil. split.
  - split; [reflexivity |]. split; [cbn; set_solver |]. split; [cbn; set_solver |].
    intros Hfree. eexists. split; [apply (script_A_completes w Hpil Hfree) |].
    cbn [Py.files].
    apply (stored_one_file_per_entry rendered_A _ _ icon_specs_paths_NoDup
             icon_specs_entries rendered_A_size).
  - split; [reflexivity |]. split; [cbn; set_solver |]. split; [cbn; set_solver |].
    intros Hfree. eexists. split; [apply (script_B_completes w Hpil Hfree) |].
    cbn [Py.files].
    apply (stored_one_file_per_entry rendered_B _ _ ICON_SIZES_paths_NoDup
             ICON_SIZES_entries rendered_B_size).
Qed.

(** The theorem for variant B on a fresh machine with Pillow. *)
Lemma batch_writes_one_file_per_entry_witness :
  exists w',
    GenerateIcons.script Py.with_pil = (Ok tt, w') /\
    one_file_per_entry rendered_B GenerateIcons.ICON_SIZES ∅ (Py.files w').
Proof.
  destruct (batch_writes_one_file_per_entry Py.with_pil eq_refl)
    as [_ (_ & _ & _ & HB)].
  apply HB. intros spec _. reflexivity.
Defined.

(** C7: if Pillow cannot be imported, [extract-icons.py] prints its
    diagnostic and the remedy and returns without writing a file, its
    render function returns [None] whatever the size, and
    [generate-icons.py] stops at its import: no icon file is produced. *)
Theorem no_pillow_no_files (w : Py.World) :
  Py.pil_installed w = false ->
  ExtractIcons.script w =
    (Ok tt,
     Py.mkWorld false false
       (Py.stdout w ++
        ["❌ PIL/Pillow not available"; "🔧 Install with: pip3 install Pillow";
         "💡 Alternative: Use the HTML file in browser and download icons manually"]%string)
       (Py.files w) (Py.locked w)) /\
  (forall size w', Py.HAS_PIL w' = false ->
     fst (ExtractIcons.create_terminal_icon size w') = Ok None /\
     Py.files (snd (ExtractIcons.create_terminal_icon size w')) = Py.files w') /\
  GenerateIcons.script w = (Raise ImportError, w).
Proof.
  intros Hpil. split; [| split].
  - unfold ExtractIcons.script, ExtractIcons.main, Py.bind, Py.can_import_PIL,
      Py.set_HAS_PIL, Py.get_HAS_PIL, Py.print, Py.ret, Py.add_stdout.
    rewrite Hpil. cbn [Py.HAS_PIL negb Py.pil_installed Py.stdout Py.files Py.locked].
    now rewrite <- !app_assoc.
  - intros size w' Hno. rewrite (create_terminal_icon_no_pil size w' Hno).
    split; reflexivity.
  - unfold GenerateIcons.script, Py.bind, Py.can_import_PIL. now rewrite Hpil.
Qed.

(** The theorem on a fresh machine without Pillow. *)
Lemma no_pillow_no_files_witness :
  Py.files (snd (ExtractIcons.script (Py.mkWorld false false [] ∅ []))) = ∅ /\
  GenerateIcons.script (Py.mkWorld false false [] ∅ [])
    = (Raise ImportError, Py.mkWorld false false [] ∅ []).
Proof.
  destruct (no_pillow_no_files (Py.mkWorld false false [] ∅ []) eq_refl)
    as (HA & _ & HB).
  split; [rewrite HA; reflexivity | exact HB].
Defined.

(** C8: rendering is deterministic. Two calls in a row return the same
    result (the second runs in the world the first left), in both variants;
    the result depends on nothing in the world but the flag [HAS_PIL], which
    the render functions never write, and in variant B on nothing at all. *)
Theorem render_deterministic (size : Z) :
  (forall w,
     fst (ExtractIcons.create_terminal_icon size
            (snd (ExtractIcons.create_terminal_icon size w)))
     = fst (ExtractIcons.create_terminal_icon size w)) /\
  (forall w w', Py.HAS_PIL w = Py.HAS_PIL w' ->
     fst (ExtractIcons.create_terminal_icon size w)
     = fst (ExtractIcons.create_terminal_icon size w')) /\
  (forall w, Py.HAS_PIL (snd (ExtractIcons.create_terminal_icon size w)) = Py.HAS_PIL w) /\
  (forall filename w,
     fst (GenerateIcons.create_icon size filename
            (snd (GenerateIcons.create_icon size filename w)))
     = fst (GenerateIcons.create_icon size filename w)) /\
  (forall filename w w',
     fst (GenerateIcons.create_icon size filename w)
     = fst (GenerateIcons.create_icon size filename w')) /\
  (forall filename w, snd (GenerateIcons.create_icon size filename w) = w).
Proof.
  assert (HA : forall w,
    ExtractIcons.create_terminal_icon size w =
    if Py.HAS_PIL w then (ExtractIcons.render size, w)
    else (Ok None,
          Py.add_stdout
            ["❌ PIL/Pillow not available. Please install: pip3 install Pillow"%string] w)).
  { intros w. destruct (Py.HAS_PIL w) eqn:Hpil.
    - now apply create_terminal_icon_pure.
    - now apply create_terminal_icon_no_pil. }
  repeat split.
  - intros w. rewrite (HA w). destruct (Py.HAS_PIL w) eqn:Hpil; cbn [snd fst].
    + rewrite (HA w), Hpil. reflexivity.
    + rewrite HA. cbn [Py.add_stdout Py.HAS_PIL]. rewrite Hpil. reflexivity.
  - intros w w' Heq. rewrite (HA w), (HA w'), <- Heq.
    destruct (Py.HAS_PIL w); reflexivity.
  - intros w. rewrite (HA w). destruct (Py.HAS_PIL w) eqn:Hpil; cbn; congruence.
  - intros filename w. now rewrite !create_icon_pure.
  - intros filename w w'. now rewrite !create_icon_pure.
  - intros filename w. now rewrite create_icon_pure.
Qed.

(** The theorem at size 40, in two worlds that differ in stdout and in the
    locked paths. *)
Lemma render_deterministic_witness :
  fst (ExtractIcons.create_terminal_icon 40 Py.with_pil)
  = fst (ExtractIcons.create_terminal_icon 40
           (Py.mkWorld true true ["  Creating Icon-20.png (20x20)"%string] ∅
                       [icon_path "Icon-20@2x.png"])).
Proof.
  apply (proj1 (proj2 (render_deterministic 40))). reflexivity.
Defined.

(** C9, as it stands, fails for variant B: at 29 pixels, a size of its
    table, the frame side is 23, and 23/29 is further than 1/29 from 3/4. *)
Lemma frame_proportion_B_29 :
  GenerateIcons.rect_size (GenerateIcons.layout 29) = 23 /\
  ~ (Qabs (proportion (GenerateIcons.rect_size (GenerateIcons.layout 29)) 29 - (3 # 4))
     <= inject_Z 1 / inject_Z 29)%Q.
Proof.
  split; [reflexivity |]. intros H. vm_compute in H. apply H. reflexivity.
Qed.

(** C9, amended: in variant A (sizes below 2^50) the frame side is
    [floor(4 * size / 5)], so its share of the canvas is within one pixel,
    1/size, of 4/5. In variant B the frame side is between 3/4 of the size
    and 7/4 pixel more: its share is within two pixels of 3/4, and within
    one pixel exactly when [size mod 8 <= 4]. *)
Theorem frame_proportion (size : Z) :
  0 < size ->
  (size < 2 ^ 50 ->
   ExtractIcons.frame_size (ExtractIcons.layout size) = 4 * size / 5 /\
   (Qabs (proportion (ExtractIcons.frame_size (ExtractIcons.layout size)) size - (4 # 5))
    <= inject_Z 1 / inject_Z size)%Q) /\
  (0 <= proportion (GenerateIcons.rect_size (GenerateIcons.layout size)) size - (3 # 4)
     <= (7 # 4) / inject_Z size)%Q /\
  ((Qabs (proportion (GenerateIcons.rect_size (GenerateIcons.layout size)) size - (3 # 4))
    <= inject_Z 1 / inject_Z size)%Q <-> size mod 8 <= 4).
Proof.
  intros Hs. split; [| split].
  - intros Hlt. destruct (layout_A_chain size ltac:(lia)) as (HF & _).
    split; [exact HF |]. rewrite HF. apply proportion_error; [exact Hs |].
    Z.div_mod_to_equations. lia.
  - unfold GenerateIcons.layout. cbn [GenerateIcons.rect_size].
    destruct size as [| s' | s']; try lia.
    unfold proportion, Qdiv, Qinv, Qle, Qminus, Qplus, Qopp, Qmult, inject_Z.
    cbn [Qnum Qden]. rewrite ?Pos.mul_1_l, ?Z.mul_1_r, ?Pos2Z.inj_mul.
    pose proof (Z.div_mod (Z.pos s') 8 ltac:(lia)) as Hdm.
    pose proof (Z.mod_pos_bound (Z.pos s') 8 ltac:(lia)) as Hr.
    set (q := Z.pos s' / 8) in *. clearbody q.
    set (r := Z.pos s' mod 8) in *. clearbody r.
    split; nia.
  - rewrite proportion_error by exact Hs.
    unfold GenerateIcons.layout. cbn [GenerateIcons.rect_size].
    split; intros; Z.div_mod_to_equations; lia.
Qed.

(** The theorem at size 1024. *)
Lemma frame_proportion_witness :
  0 < 1024 /\
  ExtractIcons.frame_size (ExtractIcons.layout 1024) = 4 * 1024 / 5 /\
  (Qabs (proportion (ExtractIcons.frame_size (ExtractIcons.layout 1024)) 1024 - (4 # 5))
   <= inject_Z 1 / inject_Z 1024)%Q.
Proof.
  assert (H0 : 0 < 1024) by lia. split; [exact H0 |].
  apply (proj1 (frame_proportion 1024 H0)). reflexivity.
Defined.

(** C10: [create_icon] never looks at its [filename]: for every size and
    any two file names it returns the same image and leaves the same
    world. *)
Theorem create_icon_ignores_filename (size : Z) (f1 f2 : string) (w : Py.World) :
  GenerateIcons.create_icon size f1 w = GenerateIcons.create_icon size f2 w.
Proof. reflexivity. Qed.

End Claims.

(** * Further properties *)

Ltac floor_eq a q :=
  let Hdm := fresh "Hdm" in let Hr := fresh "Hr" in let k := fresh "k" in
  pose proof (Z.div_mod a q ltac:(lia)) as Hdm;
  pose proof (Z.mod_pos_bound a q ltac:(lia)) as Hr;
  set (k := a / q) in *; clearbody k;
  apply Z.le_antisymm; float_bound.

Section FloorProducts.

(** Each truncated product of the source but those by [0.35] is the floor of
    the exact rational product. *)
Lemma int_mul_0_15 n : 0 <= n < 2 ^ 50 -> int (n *~ 0.15) = 3 * n / 20.
Proof. intros. floor_eq (3 * n) 20. Qed.
Lemma int_mul_0_08 n : 0 <= n < 2 ^ 50 -> int (n *~ 0.08) = 2 * n / 25.
Proof. intros. floor_eq (2 * n) 25. Qed.
Lemma int_mul_0_4 n : 0 <= n < 2 ^ 50 -> int (n *~ 0.4) = 2 * n / 5.
Proof. intros. floor_eq (2 * n) 5. Qed.
Lemma int_mul_0_3 n : 0 <= n < 2 ^ 50 -> int (n *~ 0.3) = 3 * n / 10.
Proof. intros. floor_eq (3 * n) 10. Qed.
Lemma int_mul_0_12 n : 0 <= n < 2 ^ 50 -> int (n *~ 0.12) = 3 * n / 25.
Proof. intros. floor_eq (3 * n) 25. Qed.
Lemma int_mul_0_75 n : 0 <= n < 2 ^ 50 -> int (n *~ 0.75) = 3 * n / 4.
Proof. intros. floor_eq (3 * n) 4. Qed.
Lemma int_mul_0_55 n : 0 <= n < 5 * 2 ^ 46 -> int (n *~ 0.55) = 11 * n / 20.
Proof. intros. floor_eq (11 * n) 20. Qed.
Lemma int_mul_0_03 n : 0 <= n < 2 ^ 50 -> int (n *~ 0.03) = 3 * n / 100.
Proof. intros. floor_eq (3 * n) 100. Qed.
Lemma int_mul_0_02 n : 0 <= n < 2 ^ 50 -> int (n *~ 0.02) = n / 50.
Proof. intros. floor_eq n 50. Qed.
Lemma int_mul_0_2 n : 0 <= n < 2 ^ 50 -> int (n *~ 0.2) = n / 5.
Proof. intros. floor_eq n 5. Qed.

(** [0.35] is read as a double far enough below 7/20 for an exact product to
    be rounded down. *)
Lemma int_mul_0_35 n :
  0 <= n < 2 ^ 50 ->
  0 <= int (n *~ 0.35) /\
  7 * n / 20 - 1 <= int (n *~ 0.35) <= 7 * n / 20 /\
  ((7 * n) mod 20 <> 0 -> int (n *~ 0.35) = 7 * n / 20).
Proof.
  intros Hn.
  pose proof (Z.div_mod (7 * n) 20 ltac:(lia)) as Hdm.
  pose proof (Z.mod_pos_bound (7 * n) 20 ltac:(lia)) as Hr.
  set (k := 7 * n / 20) in *. clearbody k.
  set (r := (7 * n) mod 20) in *. clearbody r.
  split; [float_bound |]. split; [split |]; [float_bound | float_bound |].
  intros Hne. apply Z.le_antisymm; float_bound.
Qed.

End FloorProducts.

(** ** Geometry *)

Section Geometry.
Import ExtractIcons PIL.

Ltac zdiv := intros; eval_pow; Z.div_mod_to_equations; lia.

(** Rewrite the fields of [layout s] into floors of [F = 4 * s / 5],
    [H = 3 * F / 20], the logo side [G] and the ring radius [R]. *)
Ltac layout_A_floors s Hs F H G R :=
  let HG := fresh "HG" in let HGx := fresh "HGx" in
  let HR := fresh "HR" in let HRx := fresh "HRx" in
  let HF := fresh "HF" in let HH := fresh "HH" in
  let HG0 := fresh "HG0" in let HR0 := fresh "HR0" in
  unfold layout, dot_x;
  cbn [frame_size frame_x frame_y corner_radius header_height button_radius
       button_y button_spacing start_x yellow_x green_x content_y content_height
       logo_size logo_x logo_y c_radius c_center_x c_center_y c_thickness
       gap_width cursor_x cursor_y cursor_width cursor_height dot_radius dot_y];
  rewrite !(int_mul_0_8 s Hs);
  pose proof (Z.div_mod (4 * s) 5 ltac:(lia)) as HF;
  (let X := fresh "HFr" in pose proof (Z.mod_pos_bound (4 * s) 5 ltac:(lia)) as X);
  set (F := 4 * s / 5) in *; clearbody F;
  rewrite ?(int_mul_0_15 F), ?(int_mul_0_08 F) by zdiv;
  destruct (int_mul_0_35 F ltac:(zdiv)) as (HG0 & HG & HGx);
  set (G := int (F *~ 0.35)) in *; clearbody G;
  pose proof (Z.div_mod (3 * F) 20 ltac:(lia)) as HH;
  (let X := fresh "HHr" in pose proof (Z.mod_pos_bound (3 * F) 20 ltac:(lia)) as X);
  set (H := 3 * F / 20) in *; clearbody H;
  rewrite ?(int_mul_0_15 H), ?(int_mul_0_4 H), ?(int_mul_0_3 H) by zdiv;
  (let X := fresh "HGb" in assert (X : 0 <= G < 5 * 2 ^ 46) by zdiv);
  rewrite ?(int_mul_0_12 G), ?(int_mul_0_75 G), ?(int_mul_0_55 G),
    ?(int_mul_0_03 G), ?(int_mul_0_15 G), ?(int_mul_0_02 G), ?(int_mul_0_8 G),
    ?(int_mul_0_2 G), ?(int_mul_0_08 G) by zdiv;
  destruct (int_mul_0_35 G ltac:(zdiv)) as (HR0 & HR & HRx);
  set (R := int (G *~ 0.35)) in *; clearbody R;
  (let X := fresh "HRb" in assert (X : 0 <= R <= G) by zdiv);
  rewrite ?(int_mul_0_8 R) by zdiv.

(** X1: in variant A the floating-point arithmetic loses nothing but at the
    two products by [0.35]: for every size below 2^50 each product truncated
    by [int] is the floor of the exact rational product (frame 4/5, corner
    2/25, header 3/20, button radius 3/20, spacing 2/5, ...), while the logo
    side and the ring radius are the floor of 7/20 of their base or one less,
    and exactly the floor when that 7/20 is not a whole number. *)
Theorem layout_A_exact (size : Z) :
  0 <= size < 2 ^ 50 ->
  let L := layout size in
  let F := frame_size L in
  let H := header_height L in
  let G := logo_size L in
  let R := c_radius L in
  F = 4 * size / 5 /\ corner_radius L = 2 * F / 25 /\ H = 3 * F / 20 /\
  button_radius L = 3 * H / 20 /\ button_spacing L = 2 * H / 5 /\
  start_x L = frame_x L + 3 * H / 10 /\
  (7 * F / 20 - 1 <= G <= 7 * F / 20 /\ ((7 * F) mod 20 <> 0 -> G = 7 * F / 20)) /\
  (7 * G / 20 - 1 <= R <= 7 * G / 20 /\ ((7 * G) mod 20 <> 0 -> R = 7 * G / 20)) /\
  c_thickness L = 3 * G / 25 /\ gap_width L = 4 * R / 5 /\
  cursor_x L = logo_x L + 3 * G / 4 /\ cursor_y L = logo_y L + 11 * G / 20 /\
  cursor_width L = Z.max 1 (3 * G / 100) /\ cursor_height L = 3 * G / 20 /\
  dot_radius L = Z.max 1 (G / 50) /\ dot_y L = logo_y L + 4 * G / 5 /\
  (forall i, dot_x L i = logo_x L + G / 5 + i * (2 * G / 25)).
Proof.
  intros Hs. cbv zeta. layout_A_floors size Hs F H G R.
  repeat split; try reflexivity; try tauto; try lia.
Qed.

(** The theorem at size 225, where the logo side is one below the floor. *)
Lemma layout_A_exact_witness :
  frame_size (layout 225) = 180 /\ header_height (layout 225) = 27 /\
  logo_size (layout 225) = 7 * 180 / 20 - 1.
Proof.
  destruct (layout_A_exact 225) as (HF & _ & HH & _).
  - split; [lia | reflexivity].
  - split; [exact HF |]. split; [rewrite HH, HF; reflexivity | reflexivity].
Defined.











(** X12: a negative size never draws. [Image.new] refuses it, so
    [create_icon] and, once Pillow is imported, [create_terminal_icon] raise
    [ValueError] and leave the world as it is; in either loop such an entry
    ends the batch after its progress line, since neither body catches the
    exception. *)
Theorem negative_size_rejected (size : Z) :
  size < 0 ->
  (forall w, Py.HAS_PIL w = true ->
     create_terminal_icon size w = (Raise ValueError, w)) /\
  (forall filename w,
     GenerateIcons.create_icon size filename w = (Raise ValueError, w)) /\
  (forall filename w, Py.HAS_PIL w = true ->
     main_body (size, filename) w
     = (Raise ValueError, Py.add_stdout [creating (size, filename)] w)) /\
  (forall filename w,
     GenerateIcons.main_body (size, filename) w
     = (Raise ValueError, Py.add_stdout [creating (size, filename)] w)).
Proof.
  intros Hneg. assert (Hlt : (size <? 0) = true) by lia.
  assert (HA : render size = Raise ValueError).
  { unfold render, create_terminal_icon. change (Py.range 3) with [0; 1; 2].
    run_py. rewrite Hlt. reflexivity. }
  assert (HB : GenerateIcons.render size = Raise ValueError).
  { unfold GenerateIcons.render, GenerateIcons.create_icon.
    run_py. rewrite Hlt. reflexivity. }
  repeat split.
  - intros w Hpil. now rewrite (create_terminal_icon_pure size w Hpil), HA.
  - intros filename w. now rewrite create_icon_pure, HB.
  - intros filename w Hpil. unfold main_body, Py.bind, Py.print.
    rewrite create_terminal_icon_pure by exact Hpil. now rewrite HA.
  - intros filename w. unfold GenerateIcons.main_body, Py.bind, Py.print.
    now rewrite create_icon_pure, HB.
Qed.

(** The theorem at size -1. *)
Lemma negative_size_rejected_witness :
  GenerateIcons.create_icon (-1) "Icon.png" Py.with_pil = (Raise ValueError, Py.with_pil).
Proof. apply (proj1 (proj2 (negative_size_rejected (-1) ltac:(lia)))). Defined.

End Geometry.

(** ** Runs of the scripts *)

Section DriverMore.

(** Either every file of [specs] can be opened, or there is a first one
    that cannot. *)
Lemma first_locked (specs : list (Z * string)) w :
  (forall spec, spec ∈ specs -> Py.is_locked (icon_path (snd spec)) w = false) \/
  exists pre spec post,
    specs = pre ++ spec :: post /\
    (forall spec', spec' ∈ pre -> Py.is_locked (icon_path (snd spec')) w = false) /\
    Py.is_locked (icon_path (snd spec)) w = true.
Proof.
  induction specs as [| spec specs IH].
  - left. intros spec Hin. now apply elem_of_nil in Hin.
  - destruct (Py.is_locked (icon_path (snd spec)) w) eqn:Hl.
    + right. exists [], spec, specs. split; [reflexivity |]. split; [| exact Hl].
      intros spec' Hin. now apply elem_of_nil in Hin.
    + destruct IH as [Hfree | (pre & spec0 & post & -> & Hpre & Hl0)].
      * left. intros spec' Hin. apply elem_of_cons in Hin as [-> | Hin]; auto.
      * right. exists (spec :: pre), spec0, post. split; [reflexivity |].
        split; [| exact Hl0].
        intros spec' Hin. apply elem_of_cons in Hin as [-> | Hin]; auto.
Qed.

(** [generate-icons.py] when the file of one entry cannot be opened. *)
Lemma script_B_aborts w pre spec post :
  Py.pil_installed w = true ->
  GenerateIcons.ICON_SIZES = pre ++ spec :: post ->
  (forall spec', spec' ∈ pre -> Py.is_locked (icon_path (snd spec')) w = false) ->
  Py.is_locked (icon_path (snd spec)) w = true ->
  GenerateIcons.script w =
  (Raise OSError,
   Py.mkWorld true (Py.HAS_PIL w)
     (Py.stdout w ++ ["🎨 Generating app icons..."%string]
      ++ map creating (pre ++ [spec]))
     (foldl (store rendered_B) (Py.files w) pre)
     (Py.locked w)).
Proof.
  intros Hpil Hsplit Hfree Hlocked.
  pose proof ICON_SIZES_png as Hpng. rewrite Hsplit in Hpng.
  apply Forall_app in Hpng as [Hpre Hrest].
  apply Forall_cons in Hrest as [[Hs Hf] _].
  unfold GenerateIcons.script, GenerateIcons.main, Py.bind, Py.can_import_PIL,
    Py.print, Py.ret.
  rewrite Hpil, Hsplit.
  rewrite (loop_aborts GenerateIcons.main_body rendered_B (fun _ => True)
             main_body_B rendered_B_some).
  - unfold after_loop, Py.add_stdout.
    cbn [Py.pil_installed Py.HAS_PIL Py.stdout Py.files Py.locked].
    rewrite Hpil, map_app. cbn [map]. now rewrite <- !app_assoc.
  - exact I.
  - apply (writable_of_unlocked _ _ Hpre). exact Hfree.
  - exact Hs.
  - exact Hf.
  - exact Hlocked.
Qed.

(** Storing the icons of a table a second time changes nothing. *)
Lemma store_twice rendered specs fs :
  NoDup (map (fun spec => icon_path (snd spec)) specs) ->
  (forall spec, spec ∈ specs -> is_Some (rendered (fst spec))) ->
  foldl (store rendered) (foldl (store rendered) fs specs) specs
  = foldl (store rendered) fs specs.
Proof.
  intros Hnd Hsome. apply map_eq. intros fp.
  destruct (decide (fp ∈ map (fun spec => icon_path (snd spec)) specs)) as [Hin | Hnot].
  - apply list_elem_of_fmap in Hin as (spec & -> & Hspec).
    destruct (Hsome spec Hspec) as [img Himg].
    rewrite !(store_lookup rendered specs _ spec img Hnd Hspec Himg). reflexivity.
  - now rewrite store_other.
Qed.

(** Storing icons removes no file. *)
Lemma store_keeps rendered specs fs fp :
  is_Some (fs !! fp) -> is_Some (foldl (store rendered) fs specs !! fp).
Proof.
  revert fs. induction specs as [| spec specs IH]; intros fs Hfp; [exact Hfp |].
  cbn [foldl]. apply IH. unfold store. destruct (rendered (fst spec)); [| exact Hfp].
  destruct (decide (icon_path (snd spec) = fp)) as [-> | Hne].
  - rewrite lookup_insert_eq. eauto.
  - now rewrite lookup_insert_ne.
Qed.

(** A progress line starts with two spaces and a capital C. *)
Lemma creating_head spec :
  exists rest, creating spec = String " " (String " " (String "C" rest)).
Proof. unfold creating. cbn. eauto. Qed.

(** [extract-icons.py] without Pillow. *)
Lemma script_A_no_pil w :
  Py.pil_installed w = false ->
  ExtractIcons.script w =
  (Ok tt,
   Py.mkWorld false false
     (Py.stdout w ++
      ["❌ PIL/Pillow not available"; "🔧 Install with: pip3 install Pillow";
       "💡 Alternative: Use the HTML file in browser and download icons manually"]%string)
     (Py.files w) (Py.locked w)).
Proof.
  intros Hpil.
  unfold ExtractIcons.script, ExtractIcons.main, Py.bind, Py.can_import_PIL,
    Py.set_HAS_PIL, Py.get_HAS_PIL, Py.print, Py.ret, Py.add_stdout.
  rewrite Hpil. cbn [Py.HAS_PIL negb Py.pil_installed Py.stdout Py.files Py.locked].
  now rewrite <- !app_assoc.
Qed.

Lemma script_B_no_pil w :
  Py.pil_installed w = false -> GenerateIcons.script w = (Raise ImportError, w).
Proof.
  intros Hpil. unfold GenerateIcons.script, Py.bind, Py.can_import_PIL.
  now rewrite Hpil.
Qed.

Lemma rendered_A_table spec :
  spec ∈ ExtractIcons.icon_specs -> is_Some (rendered_A (fst spec)).
Proof.
  intros Hin. pose proof icon_specs_png as Hpng. rewrite Forall_forall in Hpng.
  apply rendered_A_some, (Hpng spec Hin).
Qed.

Lemma rendered_B_table spec :
  spec ∈ GenerateIcons.ICON_SIZES -> is_Some (rendered_B (fst spec)).
Proof.
  intros Hin. pose proof ICON_SIZES_png as Hpng. rewrite Forall_forall in Hpng.
  apply rendered_B_some, (Hpng spec Hin).
Qed.

(** Paths outside a table are outside each of its prefixes. *)
Lemma not_in_prefix (pre post : list (Z * string)) spec fp :
  fp ∉ map (fun spec => icon_path (snd spec)) (pre ++ spec :: post) ->
  fp ∉ map (fun spec => icon_path (snd spec)) pre.
Proof. rewrite map_app. intros Hnot Hin. apply Hnot, elem_of_app. now left. Qed.

End DriverMore.

Section DriverTheorems.

(** X7: [generate-icons.py] stops at the first entry whose file cannot be
    opened: the [OSError] leaves [main], the entries before it are saved, that
    entry and the ones after it are not, and the closing lines are not
    printed. *)
Theorem first_failure_ends_batch_B (w : Py.World) pre spec post :
  Py.pil_installed w = true ->
  GenerateIcons.ICON_SIZES = pre ++ spec :: post ->
  (forall spec', spec' ∈ pre -> Py.is_locked (icon_path (snd spec')) w = false) ->
  Py.is_locked (icon_path (snd spec)) w = true ->
  exists w',
    GenerateIcons.script w = (Raise OSError, w') /\
    Py.files w' = foldl (store rendered_B) (Py.files w) pre /\
    Py.stdout w' = Py.stdout w ++ ["🎨 Generating app icons..."%string]
                              ++ map creating (pre ++ [spec]) /\
    (forall spec', spec' ∈ spec :: post ->
       Py.files w' !! icon_path (snd spec') = Py.files w !! icon_path (snd spec')).
Proof.
  intros Hpil Hsplit Hfree Hlocked. eexists.
  split; [apply (script_B_aborts w pre spec post Hpil Hsplit Hfree Hlocked) |].
  cbn [Py.files Py.stdout]. split; [reflexivity |]. split; [reflexivity |].
  intros spec' Hin. apply store_other.
  pose proof ICON_SIZES_paths_NoDup as Hnd. rewrite Hsplit, map_app in Hnd.
  apply NoDup_app in Hnd as (_ & Hdisj & _).
  intros Hpre. apply (Hdisj _ Hpre).
  apply (list_elem_of_fmap_2 (fun spec => icon_path (snd spec))) in Hin.
  exact Hin.
Qed.

(** The theorem when the second icon of the table cannot be written. *)
Lemma first_failure_ends_batch_B_witness :
  exists w',
    GenerateIcons.script
      (Py.mkWorld true false [] ∅ [icon_path "iphone-20@3x.png"])
    = (Raise OSError, w') /\
    Py.files w' = foldl (store rendered_B) ∅ [(40, "iphone-20@2x.png"%string)].
Proof.
  destruct (first_failure_ends_batch_B
              (Py.mkWorld true false [] ∅ [icon_path "iphone-20@3x.png"])
              [(40, "iphone-20@2x.png"%string)] (60, "iphone-20@3x.png"%string)
              (drop 2 GenerateIcons.ICON_SIZES))
    as (w' & Hrun & Hfiles & _).
  - reflexivity.
  - reflexivity.
  - intros spec' Hin. apply list_elem_of_singleton in Hin. subst spec'.
    vm_compute. reflexivity.
  - vm_compute. reflexivity.
  - exists w'. split; [exact Hrun | exact Hfiles].
Defined.

(** X8: running either script a second time on the world the first run left
    succeeds again and leaves the files as they were: every icon is
    overwritten by an identical one. *)
Theorem rerun_leaves_same_files (w : Py.World) :
  Py.pil_installed w = true ->
  ((forall spec, spec ∈ ExtractIcons.icon_specs ->
                 Py.is_locked (icon_path (snd spec)) w = false) ->
   fst (ExtractIcons.script (snd (ExtractIcons.script w))) = Ok tt /\
   Py.files (snd (ExtractIcons.script (snd (ExtractIcons.script w))))
   = Py.files (snd (ExtractIcons.script w))) /\
  ((forall spec, spec ∈ GenerateIcons.ICON_SIZES ->
                 Py.is_locked (icon_path (snd spec)) w = false) ->
   fst (GenerateIcons.script (snd (GenerateIcons.script w))) = Ok tt /\
   Py.files (snd (GenerateIcons.script (snd (GenerateIcons.script w))))
   = Py.files (snd (GenerateIcons.script w))).
Proof.
  intros Hpil. split; intros Hfree.
  - rewrite (script_A_completes w Hpil Hfree). cbn [snd].
    rewrite script_A_completes; [| reflexivity | exact Hfree].
    cbn [fst snd Py.files]. split; [reflexivity |].
    apply store_twice; [apply icon_specs_paths_NoDup | apply rendered_A_table].
  - rewrite (script_B_completes w Hpil Hfree). cbn [snd].
    rewrite script_B_completes; [| reflexivity | exact Hfree].
    cbn [fst snd Py.files]. split; [reflexivity |].
    apply store_twice; [apply ICON_SIZES_paths_NoDup | apply rendered_B_table].
Qed.

(** The theorem for variant B on a fresh machine with Pillow. *)
Lemma rerun_leaves_same_files_witness :
  Py.files (snd (GenerateIcons.script (snd (GenerateIcons.script Py.with_pil))))
  = Py.files (snd (GenerateIcons.script Py.with_pil)).
Proof.
  apply (proj2 (rerun_leaves_same_files Py.with_pil eq_refl)).
  intros spec _. reflexivity.
Defined.

(** X9: the closing line of either script tells the truth. Whatever the
    world, if a run prints "All icons generated" then it returned normally
    and wrote one PNG file per entry of its table. *)
Theorem success_line_means_all_saved (w : Py.World) :
  (exists out,
     Py.stdout (snd (ExtractIcons.script w)) = Py.stdout w ++ out /\
     ("✅ All icons generated!"%string ∈ out ->
      fst (ExtractIcons.script w) = Ok tt /\
      one_file_per_entry rendered_A ExtractIcons.icon_specs (Py.files w)
        (Py.files (snd (ExtractIcons.script w))))) /\
  (exists out,
     Py.stdout (snd (GenerateIcons.script w)) = Py.stdout w ++ out /\
     ("✅ All icons generated successfully!"%string ∈ out ->
      fst (GenerateIcons.script w) = Ok tt /\
      one_file_per_entry rendered_B GenerateIcons.ICON_SIZES (Py.files w)
        (Py.files (snd (GenerateIcons.script w))))).
Proof.
  split.
  - destruct (Py.pil_installed w) eqn:Hpil.
    + destruct (first_locked ExtractIcons.icon_specs w)
        as [Hfree | (pre & spec & post & Hsplit & Hfree & Hlocked)].
      * rewrite (script_A_completes w Hpil Hfree). cbn [fst snd Py.stdout Py.files].
        eexists. split; [reflexivity |]. intros _. split; [reflexivity |].
        apply (stored_one_file_per_entry rendered_A _ _ icon_specs_paths_NoDup
                 icon_specs_entries rendered_A_size).
      * rewrite (script_A_aborts w pre spec post Hpil Hsplit Hfree Hlocked).
        cbn [fst snd Py.stdout Py.files].
        eexists. split; [reflexivity |]. intros Hin. exfalso.
        apply elem_of_app in Hin as [Hin | Hin].
        -- apply list_elem_of_singleton in Hin. discriminate Hin.
        -- apply list_elem_of_fmap in Hin as (spec' & Heq & _).
           destruct (creating_head spec') as [rest Hrest].
           rewrite Hrest in Heq. discriminate Heq.
    + rewrite (script_A_no_pil w Hpil). cbn [fst snd Py.stdout Py.files].
      eexists. split; [reflexivity |]. intros Hin. exfalso.
      repeat (apply elem_of_cons in Hin as [Hin | Hin]; [discriminate Hin |]).
      now apply elem_of_nil in Hin.
  - destruct (Py.pil_installed w) eqn:Hpil.
    + destruct (first_locked GenerateIcons.ICON_SIZES w)
        as [Hfree | (pre & spec & post & Hsplit & Hfree & Hlocked)].
      * rewrite (script_B_completes w Hpil Hfree). cbn [fst snd Py.stdout Py.files].
        eexists. split; [reflexivity |]. intros _. split; [reflexivity |].
        apply (stored_one_file_per_entry rendered_B _ _ ICON_SIZES_paths_NoDup
                 ICON_SIZES_entries rendered_B_size).
      * rewrite (script_B_aborts w pre spec post Hpil Hsplit Hfree Hlocked).
        cbn [fst snd Py.stdout Py.files].
        eexists. split; [reflexivity |]. intros Hin. exfalso.
        apply elem_of_app in Hin as [Hin | Hin].
        -- apply list_elem_of_singleton in Hin. discriminate Hin.
        -- apply list_elem_of_fmap in Hin as (spec' & Heq & _).
           destruct (creating_head spec') as [rest Hrest].
           rewrite Hrest in Heq. discriminate Heq.
    + rewrite (script_B_no_pil w Hpil). cbn [fst snd].
      exists []. split; [now rewrite app_nil_r |]. intros Hin.
      now apply elem_of_nil in Hin.
Qed.

(** X10: whatever the world and however a run ends, either script changes no
    file other than the icon paths of its table, removes no file, and leaves
    the machine (Pillow, unwritable paths) as it found it. *)
Theorem scripts_touch_only_icon_paths (w : Py.World) :
  ((forall fp, fp ∉ map (fun spec => icon_path (snd spec)) ExtractIcons.icon_specs ->
      Py.files (snd (ExtractIcons.script w)) !! fp = Py.files w !! fp) /\
   (forall fp, is_Some (Py.files w !! fp) ->
      is_Some (Py.files (snd (ExtractIcons.script w)) !! fp)) /\
   Py.locked (snd (ExtractIcons.script w)) = Py.locked w /\
   Py.pil_installed (snd (ExtractIcons.script w)) = Py.pil_installed w) /\
  ((forall fp, fp ∉ map (fun spec => icon_path (snd spec)) GenerateIcons.ICON_SIZES ->
      Py.files (snd (GenerateIcons.script w)) !! fp = Py.files w !! fp) /\
   (forall fp, is_Some (Py.files w !! fp) ->
      is_Some (Py.files (snd (GenerateIcons.script w)) !! fp)) /\
   Py.locked (snd (GenerateIcons.script w)) = Py.locked w /\
   Py.pil_installed (snd (GenerateIcons.script w)) = Py.pil_installed w).
Proof.
  split.
  - destruct (Py.pil_installed w) eqn:Hpil.
    + destruct (first_locked ExtractIcons.icon_specs w)
        as [Hfree | (pre & spec & post & Hsplit & Hfree & Hlocked)].
      * rewrite (script_A_completes w Hpil Hfree).
        cbn [snd Py.files Py.locked Py.pil_installed].
        split; [intros fp Hnot; now apply store_other |].
        split; [intros fp; apply store_keeps | split; reflexivity].
      * rewrite (script_A_aborts w pre spec post Hpil Hsplit Hfree Hlocked).
        cbn [snd Py.files Py.locked Py.pil_installed].
        split; [| split; [intros fp; apply store_keeps | split; reflexivity]].
        intros fp Hnot. apply store_other. rewrite Hsplit in Hnot.
        exact (not_in_prefix pre post spec fp Hnot).
    + rewrite (script_A_no_pil w Hpil). cbn [snd Py.files Py.locked Py.pil_installed].
      repeat split; auto.
  - destruct (Py.pil_installed w) eqn:Hpil.
    + destruct (first_locked GenerateIcons.ICON_SIZES w)
        as [Hfree | (pre & spec & post & Hsplit & Hfree & Hlocked)].
      * rewrite (script_B_completes w Hpil Hfree).
        cbn [snd Py.files Py.locked Py.pil_installed].
        split; [intros fp Hnot; now apply store_other |].
        split; [intros fp; apply store_keeps | split; reflexivity].
      * rewrite (script_B_aborts w pre spec post Hpil Hsplit Hfree Hlocked).
        cbn [snd Py.files Py.locked Py.pil_installed].
        split; [| split; [intros fp; apply store_keeps | split; reflexivity]].
        intros fp Hnot. apply store_other. rewrite Hsplit in Hnot.
        exact (not_in_prefix pre post spec fp Hnot).
    + rewrite (script_B_no_pil w Hpil). cbn [snd].
      repeat split; auto.
Qed.

(** X11: no run of [extract-icons.py] prints "Failed to create ..." or the
    diagnostic of [create_terminal_icon]: [main] returns before the loop when
    [HAS_PIL] is false, so the branch of the loop for a missing image is
    never taken. *)
Theorem failure_branch_unreachable (w : Py.World) :
  exists out,
    Py.stdout (snd (ExtractIcons.script w)) = Py.stdout w ++ out /\
    forall line, line ∈ out ->
      String.prefix "  ❌ Failed to create " line = false /\
      line <> "❌ PIL/Pillow not available. Please install: pip3 install Pillow"%string.
Proof.
  assert (Hcreating : forall spec,
    String.prefix "  ❌ Failed to create " (creating spec) = false /\
    creating spec <> "❌ PIL/Pillow not available. Please install: pip3 install Pillow"%string).
  { intros spec. destruct (creating_head spec) as [rest ->].
    split; [reflexivity | discriminate]. }
  destruct (Py.pil_installed w) eqn:Hpil.
  - destruct (first_locked ExtractIcons.icon_specs w)
      as [Hfree | (pre & spec & post & Hsplit & Hfree & Hlocked)].
    + rewrite (script_A_completes w Hpil Hfree). cbn [snd Py.stdout].
      eexists. split; [reflexivity |]. intros line Hin.
      apply elem_of_app in Hin as [Hin | Hin].
      { apply list_elem_of_singleton in Hin. subst line.
        split; [reflexivity | discriminate]. }
      apply elem_of_app in Hin as [Hin | Hin].
      { apply list_elem_of_fmap in Hin as (spec' & -> & _). apply Hcreating. }
      repeat (apply elem_of_cons in Hin as [-> | Hin];
              [split; [vm_compute; reflexivity | discriminate] |]).
      now apply elem_of_nil in Hin.
    + rewrite (script_A_aborts w pre spec post Hpil Hsplit Hfree Hlocked).
      cbn [snd Py.stdout].
      eexists. split; [reflexivity |]. intros line Hin.
      apply elem_of_app in Hin as [Hin | Hin].
      { apply list_elem_of_singleton in Hin. subst line.
        split; [reflexivity | discriminate]. }
      apply list_elem_of_fmap in Hin as (spec' & -> & _). apply Hcreating.
  - rewrite (script_A_no_pil w Hpil). cbn [snd Py.stdout].
    eexists. split; [reflexivity |]. intros line Hin.
    repeat (apply elem_of_cons in Hin as [-> | Hin];
            [split; [vm_compute; reflexivity | discriminate] |]).
    now apply elem_of_nil in Hin.
Qed.

End DriverTheorems.
